(** * Client-side messaging hook of hipotrack ([useMessaging] in
    src/hooks/useDocuments.ts): the conversation directory, the
    per-conversation message cache, the optimistic send pipeline and the
    realtime push handlers, as state transformers over the hook's React
    state.  Network results are inputs (oracles); every state setter and
    every backend call is recorded in an effect log. *)

From Stdlib Require Import String Ascii List Bool ZArith Lia DecimalString.
Import ListNotations.
Open Scope string_scope.
Open Scope nat_scope.
Open Scope list_scope.

(* ------------------------------------------------------------------ *)
(** ** JavaScript strings *)

(** Strings are modelled as Rocq byte strings; the whitespace and case
    tables below cover the code units below 0x80. *)

Definition is_js_space (a : ascii) : bool :=
  match nat_of_ascii a with
  | 9 | 10 | 11 | 12 | 13 | 32 => true
  | _ => false
  end.

Fixpoint drop_spaces (l : list ascii) : list ascii :=
  match l with
  | [] => []
  | a :: r => if is_js_space a then drop_spaces r else l
  end.

(** [String.prototype.trim] *)
Definition js_trim (s : string) : string :=
  string_of_list_ascii
    (rev (drop_spaces (rev (drop_spaces (list_ascii_of_string s))))).

(** [s.replace(/\s+/g, "-")]: every maximal run of spaces becomes one dash. *)
Fixpoint replace_space_runs (in_run : bool) (l : list ascii) : list ascii :=
  match l with
  | [] => []
  | a :: r =>
      if is_js_space a
      then if in_run then replace_space_runs true r
           else "-"%char :: replace_space_runs true r
      else a :: replace_space_runs false r
  end.

Definition js_lower_char (a : ascii) : ascii :=
  let n := nat_of_ascii a in
  if (65 <=? n) && (n <=? 90) then ascii_of_nat (n + 32) else a.

(** [s.replace(/\s+/g, "-").toLowerCase()] *)
Definition storage_path_normalize (s : string) : string :=
  string_of_list_ascii
    (map js_lower_char (replace_space_runs false (list_ascii_of_string s))).

(** Template-literal rendering of a non-negative integer. *)
Definition js_nat (n : nat) : string :=
  NilZero.string_of_uint (Nat.to_uint n).

(** [a || null] on a string: the empty string is falsy. *)
Definition or_null (s : string) : option string :=
  if String.eqb s "" then None else Some s.

(* ------------------------------------------------------------------ *)
(** ** JavaScript objects used as maps ([Record<string, V>])

    An object is its list of entries in insertion order, as
    [Object.entries] returns them; keys are distinct. *)

Definition obj (V : Type) := list (string * V).

Fixpoint obj_get {V} (k : string) (o : obj V) : option V :=
  match o with
  | [] => None
  | (k', v) :: r => if String.eqb k k' then Some v else obj_get k r
  end.

(** [{ ...o, [k]: v }]: an existing key keeps its place, a new one is
    appended. *)
Fixpoint obj_set {V} (k : string) (v : V) (o : obj V) : obj V :=
  match o with
  | [] => [(k, v)]
  | (k', v') :: r =>
      if String.eqb k k' then (k, v) :: r else (k', v') :: obj_set k v r
  end.

(** [o[k] ?? []] *)
Definition obj_get_list {V} (k : string) (o : obj (list V)) : list V :=
  match obj_get k o with Some l => l | None => [] end.

(* ------------------------------------------------------------------ *)
(** ** Data model (the exported interfaces of the hook) *)

Inductive delivery_status := Pending | Sent | Error.

Definition delivery_status_eqb (a b : delivery_status) : bool :=
  match a, b with
  | Pending, Pending | Sent, Sent | Error, Error => true
  | _, _ => false
  end.

(** [avatarUrl?: string | null]: undefined and null are both [None]. *)
Module Participant.
Record t := mk {
  id : string;
  displayName : string;
  avatarUrl : option string;
  role : string;
  isCurrentUser : bool
}.
End Participant.

Module Attachment.
Record t := mk {
  id : string;
  messageId : string;
  name : string;
  url : option string;
  contentType : option string;
  size : option Z;
  createdAt : string;
  status : delivery_status
}.
Definition with_status (a : t) (s : delivery_status) : t :=
  mk a.(id) a.(messageId) a.(name) a.(url) a.(contentType) a.(size)
     a.(createdAt) s.
End Attachment.

Module Message.
Record t := mk {
  id : string;
  conversationId : string;
  content : string;
  topic : option string;
  createdAt : string;
  sender : Participant.t;
  attachments : list Attachment.t;
  status : delivery_status;
  optimisticKey : option string
}.
Definition with_status (m : t) (s : delivery_status) : t :=
  mk m.(id) m.(conversationId) m.(content) m.(topic) m.(createdAt)
     m.(sender) m.(attachments) s m.(optimisticKey).
Definition with_attachments (m : t) (l : list Attachment.t) : t :=
  mk m.(id) m.(conversationId) m.(content) m.(topic) m.(createdAt)
     m.(sender) l m.(status) m.(optimisticKey).
End Message.

(** [ConversationPreview] *)
Module Conversation.
Record t := mk {
  id : string;
  title : option string;
  updatedAt : string;
  participants : list Participant.t;
  lastMessage : option Message.t
}.
(** [{ ...c, lastMessage: m, updatedAt: at }] *)
Definition with_last (c : t) (m : Message.t) (stamp : string) : t :=
  mk c.(id) c.(title) stamp c.(participants) (Some m).
End Conversation.

Module MessagingUser.
Record t := mk {
  id : string;
  name : string;
  role : string;
  avatarUrl : option string
}.
End MessagingUser.

(** A browser [File]: [type] is [""] when unknown. *)
Module File.
Record t := mk { name : string; type_ : string; size : Z }.
End File.

Module SendMessageOptions.
Record t := mk {
  conversationId : string;
  content : string;
  topic : option string;
  attachments : list File.t
}.
End SendMessageOptions.

(** Database rows ([Tables[...]["Row"]] in src/types/supabase.ts). *)
Module ParticipantRow.
Record t := mk {
  user_id : string;
  role : string;
  display_name : string;
  avatar_url : option string
}.
End ParticipantRow.

Module AttachmentRow.
Record t := mk {
  id : string;
  message_id : string;
  name : string;
  url : option string;
  content_type : option string;
  storage_path : option string;
  size : option Z;
  created_at : string
}.
End AttachmentRow.

(** [MessageWithAttachments = MessageRow & { attachments?: AttachmentRow[] | null }] *)
Module MessageRow.
Record t := mk {
  id : string;
  conversation_id : string;
  content : string;
  created_at : string;
  sender_id : string;
  sender_role : string;
  topic : option string;
  attachments : option (list AttachmentRow.t)
}.
End MessageRow.

(** [ConversationSelectRow] *)
Module ConversationRow.
Record t := mk {
  id : string;
  title : option string;
  updated_at : string;
  participants : list ParticipantRow.t;
  latest_message : option (list MessageRow.t)
}.
End ConversationRow.

(* ------------------------------------------------------------------ *)
(** ** Formatters *)

Definition formatParticipant (row : ParticipantRow.t) (currentUserId : option string)
  : Participant.t :=
  {| Participant.id := row.(ParticipantRow.user_id);
     Participant.displayName := row.(ParticipantRow.display_name);
     Participant.avatarUrl := row.(ParticipantRow.avatar_url);
     Participant.role := row.(ParticipantRow.role);
     Participant.isCurrentUser :=
       match currentUserId with
       | Some u => String.eqb u row.(ParticipantRow.user_id)
       | None => false
       end |}.

Definition formatAttachment (row : AttachmentRow.t) : Attachment.t :=
  {| Attachment.id := row.(AttachmentRow.id);
     Attachment.messageId := row.(AttachmentRow.message_id);
     Attachment.name := row.(AttachmentRow.name);
     Attachment.url := row.(AttachmentRow.url);
     Attachment.contentType := row.(AttachmentRow.content_type);
     Attachment.size := row.(AttachmentRow.size);
     Attachment.createdAt := row.(AttachmentRow.created_at);
     Attachment.status := Sent |}.

(** [participants.find((p) => p.id === sid) ?? fallback] *)
Definition find_participant (sid : string) (ps : list Participant.t)
  (fallback : Participant.t) : Participant.t :=
  match find (fun p => String.eqb p.(Participant.id) sid) ps with
  | Some p => p
  | None => fallback
  end.

(** [formatMessage(row, participants, fallbackSender, status = "sent",
    attachmentOverrides?)] *)
Definition formatMessage (row : MessageRow.t) (participants : list Participant.t)
  (fallbackSender : Participant.t) (status : delivery_status)
  (attachmentOverrides : option (list Attachment.t)) : Message.t :=
  {| Message.id := row.(MessageRow.id);
     Message.conversationId := row.(MessageRow.conversation_id);
     Message.content := row.(MessageRow.content);
     Message.topic := row.(MessageRow.topic);
     Message.createdAt := row.(MessageRow.created_at);
     Message.sender := find_participant row.(MessageRow.sender_id) participants fallbackSender;
     Message.attachments :=
       match attachmentOverrides with
       | Some l => l
       | None =>
           map formatAttachment
             (match row.(MessageRow.attachments) with Some l => l | None => [] end)
       end;
     Message.status := status;
     Message.optimisticKey := None |}.

(** [participants.find((p) => p.isCurrentUser) ?? { ...currentUser }] as
    written in [fetchMessages] and in the push handler. *)
Definition user_fallback (participants : list Participant.t) (u : MessagingUser.t)
  : Participant.t :=
  match find Participant.isCurrentUser participants with
  | Some p => p
  | None =>
      {| Participant.id := u.(MessagingUser.id);
         Participant.displayName := u.(MessagingUser.name);
         Participant.avatarUrl := u.(MessagingUser.avatarUrl);
         Participant.role := u.(MessagingUser.role);
         Participant.isCurrentUser := true |}
  end.

Definition mapConversation (row : ConversationRow.t) (currentUserId : option string)
  : Conversation.t :=
  let participants :=
    map (fun p => formatParticipant p currentUserId) row.(ConversationRow.participants) in
  let fallbackSender :=
    match find Participant.isCurrentUser participants with
    | Some p => p
    | None =>
        {| Participant.id := match currentUserId with Some u => u | None => "" end;
           Participant.displayName := "You";
           Participant.avatarUrl := None;
           Participant.role := "member";
           Participant.isCurrentUser := true |}
    end in
  {| Conversation.id := row.(ConversationRow.id);
     Conversation.title := row.(ConversationRow.title);
     Conversation.updatedAt := row.(ConversationRow.updated_at);
     Conversation.participants := participants;
     Conversation.lastMessage :=
       match row.(ConversationRow.latest_message) with
       | Some (r :: _) => Some (formatMessage r participants fallbackSender Sent None)
       | _ => None
       end |}%string.

(* ------------------------------------------------------------------ *)
(** ** The hook's state and effects *)

(** The [useState] cells of [useMessaging].  The refs [conversationsRef]
    and [messagesRef] mirror the committed cells and are read through
    them. *)
Record state := mkState {
  conversations : list Conversation.t;
  messagesByConversation : obj (list Message.t);
  selectedConversationId : option string;
  loadingConversations : bool;
  loadingMessages : bool;
  sending : bool;
  error : option string
}.

Definition set_conversations (s : state) v :=
  mkState v s.(messagesByConversation) s.(selectedConversationId)
    s.(loadingConversations) s.(loadingMessages) s.(sending) s.(error).
Definition set_messagesByConversation (s : state) v :=
  mkState s.(conversations) v s.(selectedConversationId)
    s.(loadingConversations) s.(loadingMessages) s.(sending) s.(error).
Definition set_selectedConversationId (s : state) v :=
  mkState s.(conversations) s.(messagesByConversation) v
    s.(loadingConversations) s.(loadingMessages) s.(sending) s.(error).
Definition set_loadingConversations (s : state) v :=
  mkState s.(conversations) s.(messagesByConversation) s.(selectedConversationId)
    v s.(loadingMessages) s.(sending) s.(error).
Definition set_loadingMessages (s : state) v :=
  mkState s.(conversations) s.(messagesByConversation) s.(selectedConversationId)
    s.(loadingConversations) v s.(sending) s.(error).
Definition set_sending (s : state) v :=
  mkState s.(conversations) s.(messagesByConversation) s.(selectedConversationId)
    s.(loadingConversations) s.(loadingMessages) v s.(error).
Definition set_error (s : state) v :=
  mkState s.(conversations) s.(messagesByConversation) s.(selectedConversationId)
    s.(loadingConversations) s.(loadingMessages) s.(sending) v.

(** Observable effects: each React state setter and each backend call. *)
Inductive effect :=
| SetConversations
| SetMessagesByConversation
| SetSelectedConversationId (v : option string)
| SetLoadingConversations (b : bool)
| SetLoadingMessages (b : bool)
| SetSending (b : bool)
| SetError (e : option string)
| SelectConversations (user_id : string)
| SelectMessages (conversation_id : string)
| SelectAttachments (message_id : string)
| InsertMessage (conversation_id sender_id content : string)
| UploadFile (storage_path : string)
| InsertAttachment (message_id storage_path : string).

Definition is_network_call (e : effect) : bool :=
  match e with
  | SelectConversations _ | SelectMessages _ | SelectAttachments _
  | InsertMessage _ _ _ | UploadFile _ | InsertAttachment _ _ => true
  | _ => false
  end.

(** A state-and-log monad; the awaited results of backend calls are
    arguments of the operations. *)
Definition M (A : Type) := state -> A * state * list effect.

Definition ret {A} (a : A) : M A := fun s => (a, s, []).

Definition bind {A B} (m : M A) (k : A -> M B) : M B :=
  fun s =>
    let '(a, s1, l1) := m s in
    let '(b, s2, l2) := k a s1 in
    (b, s2, l1 ++ l2).

Notation "x <- m ;; k" := (bind m (fun x => k))
  (at level 61, m at next level, right associativity).
Notation "m ;; k" := (bind m (fun _ => k)) (at level 61, right associativity).

Definition get_state : M state := fun s => (s, s, []).

Definition call (e : effect) : M unit := fun s => (tt, s, [e]).

Definition setConversations (f : list Conversation.t -> list Conversation.t) : M unit :=
  fun s => (tt, set_conversations s (f s.(conversations)), [SetConversations]).
Definition setMessagesByConversation
  (f : obj (list Message.t) -> obj (list Message.t)) : M unit :=
  fun s => (tt, set_messagesByConversation s (f s.(messagesByConversation)),
            [SetMessagesByConversation]).
Definition setSelectedConversationId (v : option string) : M unit :=
  fun s => (tt, set_selectedConversationId s v, [SetSelectedConversationId v]).
Definition setLoadingConversations (b : bool) : M unit :=
  fun s => (tt, set_loadingConversations s b, [SetLoadingConversations b]).
Definition setLoadingMessages (b : bool) : M unit :=
  fun s => (tt, set_loadingMessages s b, [SetLoadingMessages b]).
Definition setSending (b : bool) : M unit :=
  fun s => (tt, set_sending s b, [SetSending b]).
Definition setError (e : option string) : M unit :=
  fun s => (tt, set_error s e, [SetError e]).

Definition final_state {A} (m : M A) (s : state) : state :=
  let '(_, s', _) := m s in s'.
Definition effects {A} (m : M A) (s : state) : list effect :=
  let '(_, _, l) := m s in l.

(** [getParticipants] *)
Definition participants_of (cs : list Conversation.t) (conversationId : string)
  : list Participant.t :=
  match find (fun c => String.eqb c.(Conversation.id) conversationId) cs with
  | Some c => c.(Conversation.participants)
  | None => []
  end.

Definition getParticipants (conversationId : string) : M (list Participant.t) :=
  s <- get_state ;; ret (participants_of s.(conversations) conversationId).

(** The directory updater written out three times in the hook (speculative
    send, push insert, reconciliation):
    [findIndex]; [-1] leaves the list; otherwise
    [[{ ...previous[index], lastMessage, updatedAt }, ...previous.filter(id !== cid)]]. *)
Definition promote_conversation (conversationId : string) (m : Message.t)
  (stamp : string) (previous : list Conversation.t) : list Conversation.t :=
  match find (fun c => String.eqb c.(Conversation.id) conversationId) previous with
  | None => previous
  | Some c =>
      Conversation.with_last c m stamp
        :: filter (fun c => negb (String.eqb c.(Conversation.id) conversationId)) previous
  end.

(** [!x] on a [string | null]. *)
Definition falsy (o : option string) : bool :=
  match o with None => true | Some v => String.eqb v "" end.

(* ------------------------------------------------------------------ *)
(** ** Directory loader and message synchroniser *)

Definition fetchConversations (currentUser : option MessagingUser.t)
  (response : string + list ConversationRow.t) : M unit :=
  match currentUser with
  | None => ret tt
  | Some u =>
      if String.eqb u.(MessagingUser.id) "" then ret tt else
      s0 <- get_state ;;
      let selected := s0.(selectedConversationId) in
      setLoadingConversations true ;;
      call (SelectConversations u.(MessagingUser.id)) ;;
      match response with
      | inl message =>
          setError (Some message) ;;
          setLoadingConversations false
      | inr rows =>
          let formatted := map (fun r => mapConversation r (Some u.(MessagingUser.id))) rows in
          setConversations (fun _ => formatted) ;;
          setLoadingConversations false ;;
          match formatted with
          | c :: _ =>
              if falsy selected
              then setSelectedConversationId (Some c.(Conversation.id))
              else ret tt
          | [] => ret tt
          end
      end
  end.

Definition fetchMessages (currentUser : option MessagingUser.t)
  (conversationId : string) (response : string + list MessageRow.t) : M unit :=
  match currentUser with
  | None => ret tt
  | Some u =>
      if String.eqb u.(MessagingUser.id) "" then ret tt else
      setLoadingMessages true ;;
      call (SelectMessages conversationId) ;;
      match response with
      | inl message =>
          setError (Some message) ;;
          setLoadingMessages false
      | inr rows =>
          participants <- getParticipants conversationId ;;
          let fallbackSender := user_fallback participants u in
          let formatted :=
            map (fun r => formatMessage r participants fallbackSender Sent None) rows in
          setMessagesByConversation (fun previous => obj_set conversationId formatted previous) ;;
          setLoadingMessages false
      end
  end.

(** Updater of the messages INSERT handler. *)
Definition merge_inserted_message (conversationId : string) (formattedMessage : Message.t)
  (previous : obj (list Message.t)) : obj (list Message.t) :=
  let existing := obj_get_list conversationId previous in
  if existsb (fun m => String.eqb m.(Message.id) formattedMessage.(Message.id)) existing
  then previous
  else obj_set conversationId
         (existing ++ [Message.with_status formattedMessage Sent]) previous.

(** [{ ...messageRow, attachments: attachmentRows ?? [] }] *)
Definition with_attachment_rows (r : MessageRow.t) (rows : option (list AttachmentRow.t))
  : MessageRow.t :=
  MessageRow.mk r.(MessageRow.id) r.(MessageRow.conversation_id) r.(MessageRow.content)
    r.(MessageRow.created_at) r.(MessageRow.sender_id) r.(MessageRow.sender_role)
    r.(MessageRow.topic) (Some (match rows with Some l => l | None => [] end)).

(** The messages INSERT push handler; [attachmentRows] is the result of its
    attachments lookup. *)
Definition onMessageInsert (currentUser : MessagingUser.t) (messageRow : MessageRow.t)
  (attachmentRows : option (list AttachmentRow.t)) : M unit :=
  let cid := messageRow.(MessageRow.conversation_id) in
  participants <- getParticipants cid ;;
  let fallbackSender := user_fallback participants currentUser in
  call (SelectAttachments messageRow.(MessageRow.id)) ;;
  let formattedMessage :=
    formatMessage (with_attachment_rows messageRow attachmentRows)
      participants fallbackSender Sent None in
  setMessagesByConversation (merge_inserted_message cid formattedMessage) ;;
  setConversations
    (promote_conversation cid (Message.with_status formattedMessage Sent)
       messageRow.(MessageRow.created_at)).

(** Updater of the attachments INSERT handler. *)
Definition merge_inserted_attachment (attachment : Attachment.t)
  (previous : obj (list Message.t)) : obj (list Message.t) :=
  match find (fun e => existsb (fun m => String.eqb m.(Message.id) attachment.(Attachment.messageId))
                         (snd e)) previous with
  | None => previous
  | Some (conversationId, messages) =>
      obj_set conversationId
        (map (fun m =>
                if String.eqb m.(Message.id) attachment.(Attachment.messageId)
                then Message.with_attachments m
                       (filter (fun e => negb (String.eqb e.(Attachment.id) attachment.(Attachment.id)))
                          m.(Message.attachments)
                        ++ [Attachment.with_status attachment Sent])
                else m) messages)
        previous
  end.

Definition onAttachmentInsert (row : AttachmentRow.t) : M unit :=
  setMessagesByConversation (merge_inserted_attachment (formatAttachment row)).

(* ------------------------------------------------------------------ *)
(** ** Optimistic send pipeline ([sendMessage]) *)

Definition ATTACHMENT_BUCKET := "message-attachments".

Definition SIGN_IN_ERROR := "Debes iniciar sesión para enviar mensajes.".

Definition INSERT_ERROR := "No se pudo enviar el mensaje.".

(** [supabase.storage.from(ATTACHMENT_BUCKET).getPublicUrl(path).data.publicUrl],
    relative to the project URL. *)
Definition getPublicUrl (path : string) : string :=
  "/storage/v1/object/public/" ++ ATTACHMENT_BUCKET ++ "/" ++ path.

(** Outcome of the message-row insert: an error (with its message, if the
    client returned one), or the row the server stored, with its id and
    timestamp. *)
Inductive insert_outcome :=
| InsertFailed (message : option string)
| Inserted (server_id created_at : string).

(** Outcome of one attachment: the upload fails; or the upload stores the
    file at [path] and the attachment-row insert fails; or both succeed and
    the server gives the row [row_id] and [row_created_at]. *)
Inductive attachment_outcome :=
| UploadFailed (message : string)
| RowFailed (path : string) (message : option string)
| RowInserted (path : string) (row_id row_created_at : string).

(** [Date.now()] at the time the file is handled, and its outcome. *)
Record upload_env := mkUploadEnv { clock : string; outcome : attachment_outcome }.

(** The values [sendMessage] obtains from its environment. *)
Record send_env := mkSendEnv {
  temporaryId : string;            (* crypto.randomUUID() *)
  createdAt : string;              (* new Date().toISOString() *)
  insert : insert_outcome;
  upload : nat -> upload_env       (* per attachment index *)
}.

Definition profile_of_user (u : MessagingUser.t) : Participant.t :=
  {| Participant.id := u.(MessagingUser.id);
     Participant.displayName := u.(MessagingUser.name);
     Participant.avatarUrl := u.(MessagingUser.avatarUrl);
     Participant.role := u.(MessagingUser.role);
     Participant.isCurrentUser := true |}.

Fixpoint mapi_from {A B} (f : nat -> A -> B) (i : nat) (l : list A) : list B :=
  match l with
  | [] => []
  | x :: r => f i x :: mapi_from f (S i) r
  end.

Definition optimistic_attachment (temporaryId createdAt : string) (index : nat)
  (file : File.t) : Attachment.t :=
  {| Attachment.id := temporaryId ++ "-attachment-" ++ js_nat index;
     Attachment.messageId := temporaryId;
     Attachment.name := file.(File.name);
     Attachment.url := None;
     Attachment.contentType := or_null file.(File.type_);
     Attachment.size := Some file.(File.size);
     Attachment.createdAt := createdAt;
     Attachment.status := Pending |}.

Definition optimistic_message (opts : SendMessageOptions.t) (env : send_env)
  (senderProfile : Participant.t) : Message.t :=
  {| Message.id := env.(temporaryId);
     Message.conversationId := opts.(SendMessageOptions.conversationId);
     Message.content := js_trim opts.(SendMessageOptions.content);
     Message.topic := opts.(SendMessageOptions.topic);
     Message.createdAt := env.(createdAt);
     Message.sender := senderProfile;
     Message.attachments :=
       mapi_from (optimistic_attachment env.(temporaryId) env.(createdAt)) 0
         opts.(SendMessageOptions.attachments);
     Message.status := Pending;
     Message.optimisticKey := Some env.(temporaryId) |}.

(** Step 2: the synchronous speculative update. *)
Definition send_speculate (u : MessagingUser.t) (opts : SendMessageOptions.t)
  (env : send_env) : M Participant.t :=
  let conversationId := opts.(SendMessageOptions.conversationId) in
  participants <- getParticipants conversationId ;;
  let senderProfile :=
    find_participant u.(MessagingUser.id) participants (profile_of_user u) in
  let optimisticMessage := optimistic_message opts env senderProfile in
  setMessagesByConversation (fun previous =>
    obj_set conversationId (obj_get_list conversationId previous ++ [optimisticMessage])
      previous) ;;
  setConversations (promote_conversation conversationId optimisticMessage env.(createdAt)) ;;
  setSending true ;;
  ret senderProfile.

(** [(previous[cid] ?? []).map((m) => m.id === temporaryId ? f(m) : m)] *)
Definition replace_temporary (conversationId temporaryId : string)
  (f : Message.t -> Message.t) (previous : obj (list Message.t)) : obj (list Message.t) :=
  obj_set conversationId
    (map (fun m => if String.eqb m.(Message.id) temporaryId then f m else m)
       (obj_get_list conversationId previous))
    previous.

(** Step 3: the message-row insert; [None] when the pipeline aborts. *)
Definition send_insert (u : MessagingUser.t) (opts : SendMessageOptions.t)
  (env : send_env) : M (option MessageRow.t) :=
  let conversationId := opts.(SendMessageOptions.conversationId) in
  let trimmedContent := js_trim opts.(SendMessageOptions.content) in
  call (InsertMessage conversationId u.(MessagingUser.id) trimmedContent) ;;
  match env.(insert) with
  | InsertFailed message =>
      setError (Some (match message with
                      | Some m => m
                      | None => INSERT_ERROR
                      end)) ;;
      setMessagesByConversation
        (replace_temporary conversationId env.(temporaryId)
           (fun m => Message.with_status m Error)) ;;
      setSending false ;;
      ret None
  | Inserted server_id created_at =>
      ret (Some {| MessageRow.id := server_id;
                   MessageRow.conversation_id := conversationId;
                   MessageRow.content := trimmedContent;
                   MessageRow.created_at := created_at;
                   MessageRow.sender_id := u.(MessagingUser.id);
                   MessageRow.sender_role := u.(MessagingUser.role);
                   MessageRow.topic := opts.(SendMessageOptions.topic);
                   MessageRow.attachments := None |})
  end.

Definition failed_attachment (inserted : MessageRow.t) (index : nat) (file : File.t)
  (createdAt : string) (url : option string) : Attachment.t :=
  {| Attachment.id := inserted.(MessageRow.id) ++ "-attachment-error-" ++ js_nat index;
     Attachment.messageId := inserted.(MessageRow.id);
     Attachment.name := file.(File.name);
     Attachment.url := url;
     Attachment.contentType := or_null file.(File.type_);
     Attachment.size := Some file.(File.size);
     Attachment.createdAt := createdAt;
     Attachment.status := Error |}.

(** The attachment row as the server stores and returns it. *)
Definition inserted_attachment_row (inserted : MessageRow.t) (file : File.t)
  (path row_id row_created_at : string) : AttachmentRow.t :=
  {| AttachmentRow.id := row_id;
     AttachmentRow.message_id := inserted.(MessageRow.id);
     AttachmentRow.name := file.(File.name);
     AttachmentRow.url := Some (getPublicUrl path);
     AttachmentRow.content_type := or_null file.(File.type_);
     AttachmentRow.storage_path := Some path;
     AttachmentRow.size := Some file.(File.size);
     AttachmentRow.created_at := row_created_at |}.

Definition storage_path (conversationId : string) (inserted : MessageRow.t)
  (now : string) (index : nat) (file : File.t) : string :=
  storage_path_normalize
    (conversationId ++ "/" ++ inserted.(MessageRow.id) ++ "/" ++ now ++ "-"
     ++ js_nat (S index) ++ "-" ++ file.(File.name)).

(** Step 4: [for (const [index, file] of attachments.entries())]; returns
    [uploadedAttachments]. *)
Fixpoint upload_attachments (conversationId : string) (inserted : MessageRow.t)
  (createdAt : string) (results : nat -> upload_env) (index : nat)
  (files : list File.t) : M (list Attachment.t) :=
  match files with
  | [] => ret []
  | file :: rest =>
      let r := results index in
      call (UploadFile (storage_path conversationId inserted r.(clock) index file)) ;;
      match r.(outcome) with
      | UploadFailed message =>
          setError (Some message) ;;
          others <- upload_attachments conversationId inserted createdAt results (S index) rest ;;
          ret (failed_attachment inserted index file createdAt None :: others)
      | RowFailed path message =>
          call (InsertAttachment inserted.(MessageRow.id) path) ;;
          setError (Some (match message with
                          | Some m => m
                          | None => "No se pudo guardar la información del archivo adjunto."
                          end)) ;;
          others <- upload_attachments conversationId inserted createdAt results (S index) rest ;;
          ret (failed_attachment inserted index file createdAt (Some (getPublicUrl path))
               :: others)
      | RowInserted path row_id row_created_at =>
          call (InsertAttachment inserted.(MessageRow.id) path) ;;
          others <- upload_attachments conversationId inserted createdAt results (S index) rest ;;
          ret (Attachment.with_status
                 (formatAttachment (inserted_attachment_row inserted file path row_id row_created_at))
                 Sent :: others)
      end
  end.

Definition has_error (l : list Attachment.t) : bool :=
  existsb (fun a => delivery_status_eqb a.(Attachment.status) Error) l.

Definition delivered_message (participants : list Participant.t)
  (senderProfile : Participant.t) (inserted : MessageRow.t)
  (uploaded : list Attachment.t) : Message.t :=
  formatMessage (with_attachment_rows inserted (Some [])) participants senderProfile
    (if has_error uploaded then Error else Sent)
    (match uploaded with [] => None | _ => Some uploaded end).

(** Step 5: reconciliation. *)
Definition send_reconcile (opts : SendMessageOptions.t) (env : send_env)
  (senderProfile : Participant.t) (inserted : MessageRow.t)
  (uploaded : list Attachment.t) : M unit :=
  let conversationId := opts.(SendMessageOptions.conversationId) in
  participants <- getParticipants conversationId ;;
  let deliveredMessage := delivered_message participants senderProfile inserted uploaded in
  setMessagesByConversation
    (replace_temporary conversationId env.(temporaryId) (fun _ => deliveredMessage)) ;;
  setConversations
    (promote_conversation conversationId deliveredMessage inserted.(MessageRow.created_at)) ;;
  setSending false.

Definition sendMessage (currentUser : option MessagingUser.t)
  (opts : SendMessageOptions.t) (env : send_env) : M unit :=
  match currentUser with
  | None => setError (Some SIGN_IN_ERROR)
  | Some u =>
      if String.eqb (js_trim opts.(SendMessageOptions.content)) "" then ret tt else
      senderProfile <- send_speculate u opts env ;;
      inserted <- send_insert u opts env ;;
      match inserted with
      | None => ret tt
      | Some row =>
          uploaded <- upload_attachments opts.(SendMessageOptions.conversationId) row
                        env.(createdAt) env.(upload) 0 opts.(SendMessageOptions.attachments) ;;
          send_reconcile opts env senderProfile row uploaded
      end
  end.

(* ------------------------------------------------------------------ *)
(** ** A composed scenario: a push delivered during a send

    The push handler's updates land after the message-row insert returned
    and before the reconciliation step (the attachment uploads are awaited
    in between). *)
Definition send_with_push_before_reconcile (u : MessagingUser.t)
  (opts : SendMessageOptions.t) (env : send_env)
  (pushedAttachmentRows : option (list AttachmentRow.t)) : M unit :=
  senderProfile <- send_speculate u opts env ;;
  inserted <- send_insert u opts env ;;
  match inserted with
  | None => ret tt
  | Some row =>
      uploaded <- upload_attachments opts.(SendMessageOptions.conversationId) row
                    env.(createdAt) env.(upload) 0 opts.(SendMessageOptions.attachments) ;;
      onMessageInsert u row pushedAttachmentRows ;;
      send_reconcile opts env senderProfile row uploaded
  end.

(* ------------------------------------------------------------------ *)
(** ** The [MessagingSystem] component (src/components/MessagingSystem.tsx) *)

(** [if (x)] on a [string | null]. *)
Definition truthy (o : option string) : bool := negb (falsy o).

(** [topics]: the distinct truthy topics of [messages], in the order a
    [Set] first receives them. *)
Fixpoint collect_topics (topicSet : list string) (messages : list Message.t) : list string :=
  match messages with
  | [] => topicSet
  | m :: rest =>
      let topicSet' :=
        match m.(Message.topic) with
        | Some t =>
            if String.eqb t "" then topicSet
            else if existsb (String.eqb t) topicSet then topicSet else topicSet ++ [t]
        | None => topicSet
        end in
      collect_topics topicSet' rest
  end.

Definition topics (messages : list Message.t) : list string := collect_topics [] messages.

Definition tab_filter (activeTab : string) (m : Message.t) : bool :=
  if String.eqb activeTab "all" then true
  else if String.eqb activeTab "direct" then negb m.(Message.sender).(Participant.isCurrentUser)
  else if String.eqb activeTab "topics" then truthy m.(Message.topic)
  else true.

(** [message.topic === selectedTopic] *)
Definition topic_filter (selectedTopic : string) (m : Message.t) : bool :=
  if String.eqb selectedTopic "all" then true
  else match m.(Message.topic) with
       | Some t => String.eqb t selectedTopic
       | None => false
       end.

Definition filteredMessages (messages : list Message.t) (activeTab selectedTopic : string)
  : list Message.t :=
  filter (topic_filter selectedTopic) (filter (tab_filter activeTab) messages).

(** The component's own [useState] cells. *)
Record ui_state := mkUi {
  messageText : string;
  activeTab : string;
  selectedTopic : string;
  pendingAttachments : list File.t
}.

(** [handleSendMessage]: the [sendMessage] call it makes (if any) and the
    component state after it. *)
Definition handleSendMessage (ui : ui_state) (selected : option string)
  : option SendMessageOptions.t * ui_state :=
  if String.eqb (js_trim ui.(messageText)) "" || falsy selected then (None, ui) else
  (Some {| SendMessageOptions.conversationId :=
             match selected with Some c => c | None => "" end;
           SendMessageOptions.content := ui.(messageText);
           SendMessageOptions.topic :=
             if negb (String.eqb ui.(selectedTopic) "all") then Some ui.(selectedTopic) else None;
           SendMessageOptions.attachments := ui.(pendingAttachments) |},
   mkUi "" ui.(activeTab) ui.(selectedTopic) []).

(** [Array.prototype.filter] with the element index passed to the callback. *)
Fixpoint filter_indexed {A} (p : A -> nat -> bool) (idx : nat) (l : list A) : list A :=
  match l with
  | [] => []
  | x :: r => if p x idx then x :: filter_indexed p (S idx) r else filter_indexed p (S idx) r
  end.

(** [removeAttachment]: [current.filter((_, idx) => idx !== index)] *)
Definition removeAttachment (index : nat) (ui : ui_state) : ui_state :=
  mkUi ui.(messageText) ui.(activeTab) ui.(selectedTopic)
    (filter_indexed (fun _ idx => negb (Nat.eqb idx index)) 0 ui.(pendingAttachments)).

(** [messages]: the selected conversation's cached list. *)
Definition selected_messages (s : state) : list Message.t :=
  match s.(selectedConversationId) with
  | Some c => if String.eqb c "" then [] else obj_get_list c s.(messagesByConversation)
  | None => []
  end.

(** The effect that runs when [selectedConversationId] changes:
    [if (selectedConversationId) fetchMessages(selectedConversationId)];
    [response] is the answer of the messages query. *)
Definition on_selection_change (currentUser : option MessagingUser.t)
  (response : string + list MessageRow.t) : M unit :=
  s <- get_state ;;
  match s.(selectedConversationId) with
  | Some c => if String.eqb c "" then ret tt else fetchMessages currentUser c response
  | None => ret tt
  end.

(** [refresh]; [selectedAtRender] is the [selectedConversationId] its
    closure captured. *)
Definition refresh (selectedAtRender : option string) (currentUser : option MessagingUser.t)
  (conversationsResponse : string + list ConversationRow.t)
  (messagesResponse : string + list MessageRow.t) : M unit :=
  fetchConversations currentUser conversationsResponse ;;
  match selectedAtRender with
  | Some c => if String.eqb c "" then ret tt else fetchMessages currentUser c messagesResponse
  | None => ret tt
  end.

(** The storage uploads and the attachment-row inserts of an effect log. *)
Definition upload_calls (log : list effect) : list string :=
  flat_map (fun e => match e with UploadFile path => [path] | _ => [] end) log.

Definition row_calls (log : list effect) : list (string * string) :=
  flat_map (fun e => match e with
                     | InsertAttachment mid path => [(mid, path)]
                     | _ => []
                     end) log.

(** The storage paths returned by the uploads that succeeded, in order. *)
Fixpoint stored_paths (results : nat -> upload_env) (index : nat) (files : list File.t)
  : list string :=
  match files with
  | [] => []
  | _ :: rest =>
      match (results index).(outcome) with
      | UploadFailed _ => stored_paths results (S index) rest
      | RowFailed path _ | RowInserted path _ _ => path :: stored_paths results (S index) rest
      end
  end.

(** Example data. *)
Definition user_u1 := MessagingUser.mk "u1" "Ana" "borrower" None.
Definition conversation_c1 := Conversation.mk "c1" None "t0" [] None.
Definition conversation_c2 := Conversation.mk "c2" None "t0" [] None.
Definition state_0 := mkState [conversation_c2; conversation_c1] [] None false false false None.
Definition stub_pdf := File.mk "stub.pdf" "application/pdf" 10%Z.
Definition send_env_ok (o : attachment_outcome) :=
  mkSendEnv "tmp-1" "t1" (Inserted "m-1" "t2") (fun _ => mkUploadEnv "1700" o).

Definition blank_options := SendMessageOptions.mk "c1" "   " None [].

Definition hi_options := SendMessageOptions.mk "c1" "hi" None [].

Definition no_attachment_call (e : effect) : Prop :=
  match e with
  | UploadFile _ | InsertAttachment _ _ => False
  | _ => True
  end.

(** [after] is [before] with conversation [cid] moved to the front,
    carrying [m] as its last message and [m]'s timestamp. *)
Definition at_front (cid : string) (m : Message.t)
  (before after : list Conversation.t) : Prop :=
  exists c,
    after = c :: filter (fun c => negb (String.eqb c.(Conversation.id) cid)) before
    /\ c.(Conversation.id) = cid
    /\ c.(Conversation.updatedAt) = m.(Message.createdAt)
    /\ c.(Conversation.lastMessage) = Some m.

(** [messages.map(...)] of the attachments INSERT handler. *)
Definition attach_to_messages (attachment : Attachment.t) (messages : list Message.t)
  : list Message.t :=
  map (fun m =>
         if String.eqb m.(Message.id) attachment.(Attachment.messageId)
         then Message.with_attachments m
                (filter (fun e => negb (String.eqb e.(Attachment.id) attachment.(Attachment.id)))
                   m.(Message.attachments)
                 ++ [Attachment.with_status attachment Sent])
         else m) messages.

Definition cache_with_m1 : obj (list Message.t) :=
  [("c1", [formatMessage (MessageRow.mk "m-1" "c1" "hi" "t2" "u1" "borrower" None None)
             [] (profile_of_user user_u1) Sent None])].

Definition state_with_m1 := set_messagesByConversation state_0 cache_with_m1.

Definition attachment_row_a1 :=
  AttachmentRow.mk "a-1" "m-1" "stub.pdf" (Some "/u") None None None "t3".

(** What the attachment built for [file] records about its [outcome]. *)
Definition attachment_reflects (file : File.t) (o : attachment_outcome)
  (a : Attachment.t) : Prop :=
  a.(Attachment.name) = file.(File.name)
  /\ match o with
     | UploadFailed _ => a.(Attachment.status) = Error /\ a.(Attachment.url) = None
     | RowFailed path _ =>
         a.(Attachment.status) = Error /\ a.(Attachment.url) = Some (getPublicUrl path)
     | RowInserted path _ _ =>
         a.(Attachment.status) = Sent /\ a.(Attachment.url) = Some (getPublicUrl path)
     end.

Definition stub_options := SendMessageOptions.mk "c1" "  Pay stubs  " None [stub_pdf].
Definition stub_row_failed := RowFailed "c1/m-1/1700-1-stub.pdf" None.

Definition stub_row_stored := RowInserted "c1/m-1/1700-1-stub.pdf" "a-1" "t3".

(** The row the server stores for the send of [stub_options]. *)
Definition stored_row_m1 :=
  MessageRow.mk "m-1" "c1" "Pay stubs" "t2" "u1" "borrower" None None.

(* ------------------------------------------------------------------ *)
(** ** Generic lemmas *)

Ltac unfold_m :=
  unfold bind, ret, call, get_state, setConversations, setMessagesByConversation,
    setSelectedConversationId, setLoadingConversations, setLoadingMessages,
    setSending, setError, getParticipants, final_state, effects in *.

Lemma obj_get_set_eq {V} (k : string) (v : V) (o : obj V) :
  obj_get k (obj_set k v o) = Some v.
Proof.
  induction o as [|[k' v'] r IH]; simpl.
  - now rewrite String.eqb_refl.
  - destruct (String.eqb k k') eqn:E; simpl.
    + now rewrite String.eqb_refl.
    + now rewrite E.
Qed.

Lemma obj_get_set_neq {V} (k k2 : string) (v : V) (o : obj V) :
  k <> k2 -> obj_get k2 (obj_set k v o) = obj_get k2 o.
Proof.
  intros Hne. induction o as [|[k' v'] r IH]; simpl.
  - destruct (String.eqb k2 k) eqn:E; [apply String.eqb_eq in E; congruence | reflexivity].
  - destruct (String.eqb k k') eqn:E; simpl.
    + apply String.eqb_eq in E; subst k'.
      destruct (String.eqb k2 k) eqn:E2; [apply String.eqb_eq in E2; congruence | reflexivity].
    + now rewrite IH.
Qed.

Lemma obj_get_list_set_eq {V} (k : string) (v : list V) (o : obj (list V)) :
  obj_get_list k (obj_set k v o) = v.
Proof. unfold obj_get_list. now rewrite obj_get_set_eq. Qed.

Lemma eqb_nonempty (s : string) : s <> "" -> String.eqb s "" = false.
Proof. intros H. now apply String.eqb_neq. Qed.

(* ------------------------------------------------------------------ *)
(** ** Fetch failures and refetches *)

(** C7: a failed directory fetch or message-history fetch only records the
    error string and clears the loading flag; the conversation list and
    every cached message list keep their previous values. *)
Theorem fetch_failure_retains_data (u : MessagingUser.t) (conversationId message : string)
  (s : state) (Hid : u.(MessagingUser.id) <> "") :
  final_state (fetchConversations (Some u) (inl message)) s
    = set_loadingConversations (set_error s (Some message)) false
  /\ final_state (fetchMessages (Some u) conversationId (inl message)) s
    = set_loadingMessages (set_error s (Some message)) false.
Proof.
  unfold fetchConversations, fetchMessages. rewrite (eqb_nonempty _ Hid).
  unfold_m. simpl. split; reflexivity.
Qed.

Lemma fetch_failure_retains_data_witness :
  user_u1.(MessagingUser.id) <> ""
  /\ final_state (fetchConversations (Some user_u1) (inl "timeout")) state_0
     = set_loadingConversations (set_error state_0 (Some "timeout")) false
  /\ final_state (fetchMessages (Some user_u1) "c1" (inl "timeout")) state_0
     = set_loadingMessages (set_error state_0 (Some "timeout")) false.
Proof.
  assert (H : user_u1.(MessagingUser.id) <> "") by discriminate.
  split; [exact H | apply (fetch_failure_retains_data user_u1 "c1" "timeout" state_0 H)].
Defined.

(** C9: a successful [fetchMessages c] replaces the cached list of [c]
    wholesale with the formatted server rows, all with status [sent]
    (optimistic [pending] or [error] entries under [c] are gone), and
    leaves the cached lists of all other conversations as they were. *)
Theorem fetchMessages_replaces_list (u : MessagingUser.t) (conversationId : string)
  (rows : list MessageRow.t) (s : state) (Hid : u.(MessagingUser.id) <> "") :
  let s' := final_state (fetchMessages (Some u) conversationId (inr rows)) s in
  let participants := participants_of s.(conversations) conversationId in
  obj_get conversationId s'.(messagesByConversation)
    = Some (map (fun r => formatMessage r participants (user_fallback participants u) Sent None)
              rows)
  /\ (forall m, In m (obj_get_list conversationId s'.(messagesByConversation)) ->
                m.(Message.status) = Sent)
  /\ (forall k, k <> conversationId ->
                obj_get k s'.(messagesByConversation) = obj_get k s.(messagesByConversation)).
Proof.
  unfold fetchMessages. rewrite (eqb_nonempty _ Hid). unfold_m. simpl.
  split; [|split].
  - apply obj_get_set_eq.
  - intros m Hm. rewrite obj_get_list_set_eq in Hm.
    apply in_map_iff in Hm as [r [<- _]]. reflexivity.
  - intros k Hk. apply obj_get_set_neq. congruence.
Qed.

Lemma fetchMessages_replaces_list_witness :
  user_u1.(MessagingUser.id) <> ""
  /\ (let s' := final_state (fetchMessages (Some user_u1) "c1" (inr [])) state_0 in
      let participants := participants_of state_0.(conversations) "c1" in
      obj_get "c1" s'.(messagesByConversation)
        = Some (map (fun r => formatMessage r participants
                                (user_fallback participants user_u1) Sent None) [])
      /\ (forall m, In m (obj_get_list "c1" s'.(messagesByConversation)) ->
                    m.(Message.status) = Sent)
      /\ (forall k, k <> "c1" ->
             obj_get k s'.(messagesByConversation) = obj_get k state_0.(messagesByConversation))).
Proof.
  assert (H : user_u1.(MessagingUser.id) <> "") by discriminate.
  split; [exact H | apply (fetchMessages_replaces_list user_u1 "c1" [] state_0 H)].
Defined.

(* ------------------------------------------------------------------ *)
(** ** Guards of [sendMessage] *)

Lemma sendMessage_no_user (opts : SendMessageOptions.t) (env : send_env) (s : state) :
  sendMessage None opts env s
    = (tt, set_error s (Some SIGN_IN_ERROR), [SetError (Some SIGN_IN_ERROR)]).
Proof. reflexivity. Qed.

(** C6 (as stated, refuted): with no signed-in user, a blank send is not a
    no-op: the sign-in check comes first and surfaces an error. *)
Lemma blank_send_surfaces_error_without_user :
  state_0.(error) = None
  /\ (final_state (sendMessage None blank_options (send_env_ok (UploadFailed "x"))) state_0).(error)
     = Some SIGN_IN_ERROR.
Proof. split; reflexivity. Qed.

(** C6 (amended): for a signed-in user, a send whose content trims to the
    empty string returns at once: state unchanged and nothing logged (no
    message entry, no directory change, no sending flag, no error, no
    network call); without a signed-in user the only change is the
    sign-in error. *)
Theorem blank_send_noop (u : MessagingUser.t) (opts : SendMessageOptions.t)
  (env : send_env) (s : state)
  (Hblank : js_trim opts.(SendMessageOptions.content) = "") :
  sendMessage (Some u) opts env s = (tt, s, [])
  /\ sendMessage None opts env s
     = (tt, set_error s (Some SIGN_IN_ERROR), [SetError (Some SIGN_IN_ERROR)]).
Proof.
  split; [|apply sendMessage_no_user].
  unfold sendMessage. rewrite Hblank. reflexivity.
Qed.

Lemma blank_send_noop_witness :
  js_trim blank_options.(SendMessageOptions.content) = ""
  /\ sendMessage (Some user_u1) blank_options (send_env_ok (UploadFailed "x")) state_0
     = (tt, state_0, [])
  /\ sendMessage None blank_options (send_env_ok (UploadFailed "x")) state_0
     = (tt, set_error state_0 (Some SIGN_IN_ERROR), [SetError (Some SIGN_IN_ERROR)]).
Proof.
  assert (H : js_trim blank_options.(SendMessageOptions.content) = "") by reflexivity.
  split; [exact H | apply (blank_send_noop user_u1 blank_options _ state_0 H)].
Defined.

(** C8 (as stated, refuted): with no conversation selected
    ([selectedConversationId = null] in [state_0]), [sendMessage] still
    adds the speculative entry and issues the message-row insert. *)
Lemma send_without_selection_proceeds :
  state_0.(selectedConversationId) = None
  /\ obj_get_list "c1"
       (final_state (send_speculate user_u1 hi_options (send_env_ok (UploadFailed "x")))
          state_0).(messagesByConversation) <> []
  /\ In (InsertMessage "c1" "u1" "hi")
       (effects (sendMessage (Some user_u1) hi_options (send_env_ok (UploadFailed "x"))) state_0).
Proof.
  split; [reflexivity | split].
  - vm_compute. discriminate.
  - vm_compute. right; right; right; left; reflexivity.
Qed.

Lemma send_speculate_eq (u : MessagingUser.t) (opts : SendMessageOptions.t)
  (env : send_env) (s : state) :
  let cid := opts.(SendMessageOptions.conversationId) in
  let senderProfile :=
    find_participant u.(MessagingUser.id) (participants_of s.(conversations) cid)
      (profile_of_user u) in
  let m := optimistic_message opts env senderProfile in
  send_speculate u opts env s
  = (senderProfile,
     set_sending
       (set_conversations
          (set_messagesByConversation s
             (obj_set cid (obj_get_list cid s.(messagesByConversation) ++ [m])
                s.(messagesByConversation)))
          (promote_conversation cid m env.(createdAt) s.(conversations)))
       true,
     [SetMessagesByConversation; SetConversations; SetSending true]).
Proof. reflexivity. Qed.

(** C8 (amended): [sendMessage] never consults the selected conversation.
    The only check before the speculative insert is for a signed-in user:
    without one it surfaces an error and does nothing else (no message
    entry, no network call).  With a signed-in user and non-blank content,
    from any state (with or without a selection) it appends the
    speculative entry to the conversation it is given and then issues the
    message-row insert. *)
Theorem send_guard_is_sign_in_only :
  (forall opts env s,
     sendMessage None opts env s
     = (tt, set_error s (Some SIGN_IN_ERROR), [SetError (Some SIGN_IN_ERROR)]))
  /\ (forall (u : MessagingUser.t) (opts : SendMessageOptions.t) (env : send_env) (s : state),
        js_trim opts.(SendMessageOptions.content) <> "" ->
        let cid := opts.(SendMessageOptions.conversationId) in
        let senderProfile :=
          find_participant u.(MessagingUser.id) (participants_of s.(conversations) cid)
            (profile_of_user u) in
        obj_get_list cid (final_state (send_speculate u opts env) s).(messagesByConversation)
          = obj_get_list cid s.(messagesByConversation)
            ++ [optimistic_message opts env senderProfile]
        /\ exists rest,
             effects (sendMessage (Some u) opts env) s
             = SetMessagesByConversation :: SetConversations :: SetSending true
               :: InsertMessage cid u.(MessagingUser.id) (js_trim opts.(SendMessageOptions.content))
               :: rest).
Proof.
  split; [exact sendMessage_no_user|].
  intros u opts env s Hne cid senderProfile. split.
  - unfold final_state. rewrite send_speculate_eq. simpl. apply obj_get_list_set_eq.
  - unfold effects, sendMessage. rewrite (eqb_nonempty _ Hne).
    unfold bind at 1. rewrite send_speculate_eq. cbv zeta.
    unfold send_insert. unfold bind at 1 2. simpl.
    destruct (insert env) as [msg | sid cat]; simpl.
    + eexists. reflexivity.
    + unfold bind at 1.
      destruct (upload_attachments _ _ _ _ _ _ _) as [[up s2] l2].
      eexists. reflexivity.
Qed.

Lemma send_guard_is_sign_in_only_witness :
  js_trim hi_options.(SendMessageOptions.content) <> ""
  /\ (let cid := hi_options.(SendMessageOptions.conversationId) in
      let senderProfile :=
        find_participant user_u1.(MessagingUser.id)
          (participants_of state_0.(conversations) cid) (profile_of_user user_u1) in
      obj_get_list cid
        (final_state (send_speculate user_u1 hi_options (send_env_ok (UploadFailed "x")))
           state_0).(messagesByConversation)
        = obj_get_list cid state_0.(messagesByConversation)
          ++ [optimistic_message hi_options (send_env_ok (UploadFailed "x")) senderProfile]
      /\ exists rest,
           effects (sendMessage (Some user_u1) hi_options (send_env_ok (UploadFailed "x"))) state_0
           = SetMessagesByConversation :: SetConversations :: SetSending true
             :: InsertMessage cid user_u1.(MessagingUser.id)
                  (js_trim hi_options.(SendMessageOptions.content))
             :: rest).
Proof.
  assert (H : js_trim hi_options.(SendMessageOptions.content) <> "") by discriminate.
  split; [exact H|].
  exact (proj2 send_guard_is_sign_in_only user_u1 hi_options _ state_0 H).
Defined.

(* ------------------------------------------------------------------ *)
(** ** Message-row insert failure *)

Lemma map_replace_absent (t : string) (f : Message.t -> Message.t) (l : list Message.t) :
  (forall m, In m l -> m.(Message.id) <> t) ->
  map (fun m => if String.eqb m.(Message.id) t then f m else m) l = l.
Proof.
  induction l as [|m r IH]; intros H; simpl; [reflexivity|].
  rewrite (proj2 (String.eqb_neq _ _) (H m (or_introl eq_refl))).
  f_equal. apply IH. intros m' Hm'. apply H. now right.
Qed.

Lemma replace_temporary_appended (cid t : string) (f : Message.t -> Message.t)
  (m : Message.t) (o : obj (list Message.t)) :
  m.(Message.id) = t ->
  (forall m', In m' (obj_get_list cid o) -> m'.(Message.id) <> t) ->
  obj_get_list cid
    (replace_temporary cid t f (obj_set cid (obj_get_list cid o ++ [m]) o))
  = obj_get_list cid o ++ [f m].
Proof.
  intros Hid Hfresh. unfold replace_temporary.
  rewrite !obj_get_list_set_eq, map_app, map_replace_absent by exact Hfresh.
  simpl. rewrite Hid, String.eqb_refl. reflexivity.
Qed.

(** C4: when the message-row insert fails, the speculative entry stays at
    its place in the conversation's list with status [error], the failure
    string is the shared error, and no upload or attachment-row write is
    issued. *)
Theorem insert_failure_marks_error (u : MessagingUser.t) (opts : SendMessageOptions.t)
  (env : send_env) (s : state) (message : option string)
  (Hne : js_trim opts.(SendMessageOptions.content) <> "")
  (Hins : env.(insert) = InsertFailed message)
  (Hfresh : forall m, In m (obj_get_list opts.(SendMessageOptions.conversationId)
                              s.(messagesByConversation)) ->
                      m.(Message.id) <> env.(temporaryId)) :
  let cid := opts.(SendMessageOptions.conversationId) in
  let senderProfile :=
    find_participant u.(MessagingUser.id) (participants_of s.(conversations) cid)
      (profile_of_user u) in
  let '(_, s', log) := sendMessage (Some u) opts env s in
  obj_get_list cid s'.(messagesByConversation)
    = obj_get_list cid s.(messagesByConversation)
      ++ [Message.with_status (optimistic_message opts env senderProfile) Error]
  /\ s'.(error) = Some (match message with Some m => m | None => INSERT_ERROR end)
  /\ Forall no_attachment_call log.
Proof.
  intros cid senderProfile.
  unfold sendMessage. rewrite (eqb_nonempty _ Hne).
  unfold bind at 1. rewrite send_speculate_eq. cbv zeta.
  unfold send_insert. rewrite Hins. unfold_m. simpl.
  split; [|split].
  - apply replace_temporary_appended; [reflexivity | exact Hfresh].
  - reflexivity.
  - repeat constructor.
Qed.

Lemma insert_failure_marks_error_witness :
  let env := mkSendEnv "tmp-1" "t1" (InsertFailed None)
               (fun _ => mkUploadEnv "1700" (UploadFailed "x")) in
  js_trim hi_options.(SendMessageOptions.content) <> ""
  /\ env.(insert) = InsertFailed None
  /\ (forall m, In m (obj_get_list hi_options.(SendMessageOptions.conversationId)
                        state_0.(messagesByConversation)) ->
                m.(Message.id) <> env.(temporaryId))
  /\ (let cid := hi_options.(SendMessageOptions.conversationId) in
      let senderProfile :=
        find_participant user_u1.(MessagingUser.id) (participants_of state_0.(conversations) cid)
          (profile_of_user user_u1) in
      let '(_, s', log) := sendMessage (Some user_u1) hi_options env state_0 in
      obj_get_list cid s'.(messagesByConversation)
        = obj_get_list cid state_0.(messagesByConversation)
          ++ [Message.with_status (optimistic_message hi_options env senderProfile) Error]
      /\ s'.(error) = Some INSERT_ERROR
      /\ Forall no_attachment_call log).
Proof.
  intros env.
  assert (H1 : js_trim hi_options.(SendMessageOptions.content) <> "") by discriminate.
  assert (H2 : env.(insert) = InsertFailed None) by reflexivity.
  assert (H3 : forall m, In m (obj_get_list hi_options.(SendMessageOptions.conversationId)
                                 state_0.(messagesByConversation)) ->
                         m.(Message.id) <> env.(temporaryId)) by (intros m []).
  split; [exact H1 | split; [exact H2 | split; [exact H3 |]]].
  exact (insert_failure_marks_error user_u1 hi_options env state_0 None H1 H2 H3).
Defined.

(* ------------------------------------------------------------------ *)
(** ** Directory promotion *)

Lemma find_conversation_present (cid : string) (cs : list Conversation.t) :
  (exists c, In c cs /\ c.(Conversation.id) = cid) ->
  exists c, find (fun c => String.eqb c.(Conversation.id) cid) cs = Some c
            /\ c.(Conversation.id) = cid.
Proof.
  intros [c0 [Hin Hid]].
  destruct (find (fun c => String.eqb c.(Conversation.id) cid) cs) as [c|] eqn:E.
  - exists c. split; [reflexivity|]. apply find_some in E as [_ E].
    now apply String.eqb_eq.
  - apply (find_none _ _ E) in Hin. rewrite Hid, String.eqb_refl in Hin. discriminate.
Qed.

Lemma promote_at_front (cid : string) (m : Message.t) (cs : list Conversation.t) :
  (exists c, In c cs /\ c.(Conversation.id) = cid) ->
  at_front cid m cs (promote_conversation cid m m.(Message.createdAt) cs).
Proof.
  intros H. apply find_conversation_present in H as [c [E Hid]].
  unfold promote_conversation. rewrite E.
  exists (Conversation.with_last c m m.(Message.createdAt)). simpl.
  repeat split; assumption.
Qed.

(** C5: when the speculative send, the push-confirmed insert, or the
    reconciliation of a send puts a message of conversation [cid] into the
    cache and [cid] is in the directory, [cid] ends up at index 0 with that
    message as [lastMessage] and its [createdAt] as [updatedAt], followed by
    the other conversations in their previous order. *)
Theorem directory_promotion (cid : string) (s : state)
  (Hin : exists c, In c s.(conversations) /\ c.(Conversation.id) = cid) :
  (forall u opts env,
     opts.(SendMessageOptions.conversationId) = cid ->
     let senderProfile :=
       find_participant u.(MessagingUser.id) (participants_of s.(conversations) cid)
         (profile_of_user u) in
     at_front cid (optimistic_message opts env senderProfile) s.(conversations)
       (final_state (send_speculate u opts env) s).(conversations))
  /\ (forall u row attachmentRows,
        row.(MessageRow.conversation_id) = cid ->
        let participants := participants_of s.(conversations) cid in
        at_front cid
          (Message.with_status
             (formatMessage (with_attachment_rows row attachmentRows) participants
                (user_fallback participants u) Sent None) Sent)
          s.(conversations)
          (final_state (onMessageInsert u row attachmentRows) s).(conversations))
  /\ (forall opts env senderProfile row uploaded,
        opts.(SendMessageOptions.conversationId) = cid ->
        at_front cid
          (delivered_message (participants_of s.(conversations) cid) senderProfile row uploaded)
          s.(conversations)
          (final_state (send_reconcile opts env senderProfile row uploaded) s).(conversations)).
Proof.
  split; [|split].
  - intros u opts env <- senderProfile. unfold final_state.
    rewrite send_speculate_eq. simpl. now apply promote_at_front.
  - intros u row rows <- participants. unfold onMessageInsert. unfold_m. simpl.
    now apply promote_at_front.
  - intros opts env senderProfile row uploaded <-. unfold send_reconcile. unfold_m. simpl.
    now apply promote_at_front.
Qed.

Lemma directory_promotion_witness :
  (exists c, In c state_0.(conversations) /\ c.(Conversation.id) = "c1")
  /\ at_front "c1"
       (optimistic_message hi_options (send_env_ok (UploadFailed "x"))
          (find_participant "u1" (participants_of state_0.(conversations) "c1")
             (profile_of_user user_u1)))
       state_0.(conversations)
       (final_state (send_speculate user_u1 hi_options (send_env_ok (UploadFailed "x")))
          state_0).(conversations).
Proof.
  assert (H : exists c, In c state_0.(conversations) /\ c.(Conversation.id) = "c1")
    by (exists conversation_c1; split; [right; left; reflexivity | reflexivity]).
  split; [exact H|].
  exact (proj1 (directory_promotion "c1" state_0 H) user_u1 hi_options _ eq_refl).
Defined.

(* ------------------------------------------------------------------ *)
(** ** Push handlers *)

Lemma filter_twice {A} (p : A -> bool) (l : list A) : filter p (filter p l) = filter p l.
Proof.
  induction l as [|x r IH]; simpl; [reflexivity|].
  destruct (p x) eqn:E; simpl; [rewrite E, IH|]; easy.
Qed.

Lemma promote_conversation_twice (cid : string) (m : Message.t) (stamp : string)
  (cs : list Conversation.t) :
  promote_conversation cid m stamp (promote_conversation cid m stamp cs)
  = promote_conversation cid m stamp cs.
Proof.
  unfold promote_conversation at 2 3.
  destruct (find (fun c => String.eqb c.(Conversation.id) cid) cs) as [c|] eqn:E.
  - pose proof (find_some _ _ E) as [_ Hid]. simpl in Hid.
    unfold promote_conversation. simpl. rewrite Hid. simpl.
    rewrite filter_twice. reflexivity.
  - unfold promote_conversation. now rewrite E.
Qed.

Lemma participants_of_promote (cid : string) (m : Message.t) (stamp : string)
  (cs : list Conversation.t) :
  participants_of (promote_conversation cid m stamp cs) cid = participants_of cs cid.
Proof.
  unfold promote_conversation.
  destruct (find (fun c => String.eqb c.(Conversation.id) cid) cs) as [c|] eqn:E;
    [|reflexivity].
  pose proof (find_some _ _ E) as [_ Hid].
  unfold participants_of. simpl. rewrite Hid, E. reflexivity.
Qed.

Lemma merge_inserted_message_twice (cid : string) (fm : Message.t)
  (p : obj (list Message.t)) :
  merge_inserted_message cid fm (merge_inserted_message cid fm p)
  = merge_inserted_message cid fm p.
Proof.
  unfold merge_inserted_message at 2 3.
  destruct (existsb _ (obj_get_list cid p)) eqn:E.
  - unfold merge_inserted_message. now rewrite E.
  - unfold merge_inserted_message. rewrite obj_get_list_set_eq, existsb_app. simpl.
    rewrite String.eqb_refl, orb_true_r. reflexivity.
Qed.

Lemma onMessageInsert_state (u : MessagingUser.t) (row : MessageRow.t)
  (attachmentRows : option (list AttachmentRow.t)) (s : state) :
  let cid := row.(MessageRow.conversation_id) in
  let participants := participants_of s.(conversations) cid in
  let fm := formatMessage (with_attachment_rows row attachmentRows) participants
              (user_fallback participants u) Sent None in
  final_state (onMessageInsert u row attachmentRows) s
  = set_conversations
      (set_messagesByConversation s (merge_inserted_message cid fm s.(messagesByConversation)))
      (promote_conversation cid (Message.with_status fm Sent) row.(MessageRow.created_at)
         s.(conversations)).
Proof. reflexivity. Qed.

(** C2: the messages INSERT handler is idempotent on the hook's state:
    handling the same event (the same row and attachment lookup) twice
    gives the state that handling it once gives; a message whose id is
    already in the conversation's list is not appended again. *)
Theorem message_push_idempotent (u : MessagingUser.t) (row : MessageRow.t)
  (attachmentRows : option (list AttachmentRow.t)) (s : state) :
  final_state (onMessageInsert u row attachmentRows)
    (final_state (onMessageInsert u row attachmentRows) s)
  = final_state (onMessageInsert u row attachmentRows) s.
Proof.
  rewrite !onMessageInsert_state. cbv zeta. simpl.
  rewrite participants_of_promote, merge_inserted_message_twice,
    promote_conversation_twice.
  reflexivity.
Qed.

Lemma obj_get_in {V} (k : string) (v : V) (o : obj V) :
  NoDup (map fst o) -> In (k, v) o -> obj_get k o = Some v.
Proof.
  induction o as [|[k' v'] r IH]; intros Hnd Hin; [destruct Hin|].
  simpl in Hnd. inversion Hnd as [|? ? Hnotin Hnd']; subst. simpl.
  destruct Hin as [Heq | Hin].
  - inversion Heq; subst. now rewrite String.eqb_refl.
  - destruct (String.eqb k k') eqn:E.
    + apply String.eqb_eq in E; subst k'.
      exfalso. apply Hnotin. apply (in_map fst _ _ Hin).
    + now apply IH.
Qed.

(** C10: an attachments INSERT event whose [message_id] matches no cached
    message leaves the cache unchanged; otherwise exactly one conversation's
    list changes, and in it only the messages with that id, whose
    attachment list loses any attachment with the event's id and gains the
    event's attachment, status [sent], at the end (all other message fields
    kept).  Keys of the cache object are distinct, as in a JS object. *)
Theorem attachment_push_frame (row : AttachmentRow.t) (s : state)
  (Hkeys : NoDup (map fst s.(messagesByConversation))) :
  let attachment := formatAttachment row in
  let mid := row.(AttachmentRow.message_id) in
  let previous := s.(messagesByConversation) in
  let next := (final_state (onAttachmentInsert row) s).(messagesByConversation) in
  ((forall e m, In e previous -> In m (snd e) -> m.(Message.id) <> mid) -> next = previous)
  /\ ((exists e m, In e previous /\ In m (snd e) /\ m.(Message.id) = mid) ->
      exists cid messages,
        obj_get cid previous = Some messages
        /\ (exists m, In m messages /\ m.(Message.id) = mid)
        /\ obj_get cid next = Some (attach_to_messages attachment messages)
        /\ (forall k, k <> cid -> obj_get k next = obj_get k previous)).
Proof.
  intros attachment mid previous next.
  unfold next, onAttachmentInsert. unfold_m. simpl.
  unfold merge_inserted_attachment. fold previous.
  destruct (find _ previous) as [[cid messages]|] eqn:E.
  - apply find_some in E as [Hin Hex]. simpl in Hex.
    apply existsb_exists in Hex as [m0 [Hm0 Hid0]]. apply String.eqb_eq in Hid0.
    split.
    + intros Hnone. exfalso. exact (Hnone _ m0 Hin Hm0 Hid0).
    + intros _. exists cid, messages. split; [|split; [|split]].
      * now apply obj_get_in.
      * now exists m0.
      * apply obj_get_set_eq.
      * intros k Hk. apply obj_get_set_neq. congruence.
  - split; [reflexivity|].
    intros [e [m [Hin [Hm Hid]]]]. exfalso.
    pose proof (find_none _ _ E e Hin) as Hf. simpl in Hf.
    assert (Hex : existsb (fun m => String.eqb m.(Message.id) mid) (snd e) = true).
    { apply existsb_exists. exists m. split; [exact Hm|]. now apply String.eqb_eq. }
    unfold attachment, mid in Hex. simpl in Hf. rewrite Hex in Hf. discriminate.
Qed.

Lemma attachment_push_frame_witness :
  let s := set_messagesByConversation state_0 cache_with_m1 in
  NoDup (map fst s.(messagesByConversation))
  /\ (let attachment := formatAttachment attachment_row_a1 in
      let mid := attachment_row_a1.(AttachmentRow.message_id) in
      let previous := s.(messagesByConversation) in
      let next := (final_state (onAttachmentInsert attachment_row_a1) s).(messagesByConversation) in
      ((forall e m, In e previous -> In m (snd e) -> m.(Message.id) <> mid) -> next = previous)
      /\ ((exists e m, In e previous /\ In m (snd e) /\ m.(Message.id) = mid) ->
          exists cid messages,
            obj_get cid previous = Some messages
            /\ (exists m, In m messages /\ m.(Message.id) = mid)
            /\ obj_get cid next = Some (attach_to_messages attachment messages)
            /\ (forall k, k <> cid -> obj_get k next = obj_get k previous))).
Proof.
  intros s.
  assert (H : NoDup (map fst s.(messagesByConversation)))
    by (simpl; constructor; [intros [] | constructor]).
  split; [exact H | exact (attachment_push_frame attachment_row_a1 s H)].
Defined.

(* ------------------------------------------------------------------ *)
(** ** Attachment outcomes of a send *)

Lemma upload_attachments_spec (cid : string) (inserted : MessageRow.t)
  (createdAt : string) (results : nat -> upload_env) (files : list File.t) :
  forall index s,
  let '(uploaded, s', _) := upload_attachments cid inserted createdAt results index files s in
  s'.(messagesByConversation) = s.(messagesByConversation)
  /\ s'.(conversations) = s.(conversations)
  /\ length uploaded = length files
  /\ (forall i file, nth_error files i = Some file ->
        exists a, nth_error uploaded i = Some a
                  /\ attachment_reflects file (results (index + i)).(outcome) a).
Proof.
  induction files as [|file rest IH]; intros index s.
  - simpl. repeat split; try reflexivity. intros [|i] f H; discriminate.
  - simpl. unfold_m. simpl.
    destruct (results index) as [clk o] eqn:Er. simpl.
    destruct o as [msg | path msg | path rid rca]; simpl;
      match goal with
      | |- context [upload_attachments cid inserted createdAt results (S index) rest ?s1] =>
          specialize (IH (S index) s1);
          destruct (upload_attachments cid inserted createdAt results (S index) rest s1)
            as [[others s2] l2]
      end;
      destruct IH as [Hm [Hc [Hl Hn]]]; simpl;
      (split; [exact Hm | split; [exact Hc | split; [simpl; congruence |]]]);
      intros [|i] f Hf; simpl in Hf |- *;
      try (injection Hf as <-; eexists; split; [reflexivity|];
           rewrite Nat.add_0_r, Er; simpl; repeat split; reflexivity);
      (destruct (Hn i f Hf) as [a [Ha Hr]]; exists a; split; [exact Ha|];
       rewrite Nat.add_succ_r; exact Hr).
Qed.

Lemma delivered_attachments (participants : list Participant.t)
  (senderProfile : Participant.t) (inserted : MessageRow.t) (uploaded : list Attachment.t) :
  (delivered_message participants senderProfile inserted uploaded).(Message.attachments)
  = uploaded.
Proof. destruct uploaded; reflexivity. Qed.

Lemma has_error_spec (l : list Attachment.t) :
  has_error l = true <-> exists a, In a l /\ a.(Attachment.status) = Error.
Proof.
  unfold has_error. rewrite existsb_exists.
  split; intros [a [Hin H]]; exists a; split; auto.
  - destruct (Attachment.status a); simpl in H; congruence.
  - now rewrite H.
Qed.

(** C3 (as stated, refuted): an attachment whose upload succeeded but whose
    row write failed ends in [error] with the public URL of the uploaded
    file: not null, and not its speculative (null) URL. *)
Lemma row_write_failure_keeps_public_url :
  match obj_get_list "c1"
          (final_state (sendMessage (Some user_u1) stub_options (send_env_ok stub_row_failed))
             state_0).(messagesByConversation) with
  | [m] =>
      match m.(Message.attachments) with
      | [a] =>
          a.(Attachment.status) = Error
          /\ a.(Attachment.url) <> None
          /\ a.(Attachment.url) <> (optimistic_attachment "tmp-1" "t1" 0 stub_pdf).(Attachment.url)
      | _ => False
      end
  | _ => False
  end.
Proof. vm_compute. split; [reflexivity | split; discriminate]. Qed.

(** C3 (amended): after a send whose message row was stored, the
    speculative entry is replaced in place by the reconciled message: its
    content is the trimmed input, it has one attachment per file, and the
    attachment of file [i] depends only on file [i]'s outcome: a failed
    upload gives status [error] and a null url, an upload whose row write
    failed gives status [error] and the public URL of the uploaded file,
    and a stored row gives status [sent] and that (non-null) URL.  The
    message is [error] exactly when some attachment is [error], [sent]
    otherwise. *)
Theorem attachment_outcomes_contained (u : MessagingUser.t) (opts : SendMessageOptions.t)
  (env : send_env) (s : state) (server_id created_at : string)
  (Hne : js_trim opts.(SendMessageOptions.content) <> "")
  (Hins : env.(insert) = Inserted server_id created_at)
  (Hfresh : forall m, In m (obj_get_list opts.(SendMessageOptions.conversationId)
                              s.(messagesByConversation)) ->
                      m.(Message.id) <> env.(temporaryId)) :
  let cid := opts.(SendMessageOptions.conversationId) in
  let '(_, s', _) := sendMessage (Some u) opts env s in
  exists delivered,
    obj_get_list cid s'.(messagesByConversation)
      = obj_get_list cid s.(messagesByConversation) ++ [delivered]
    /\ delivered.(Message.id) = server_id
    /\ delivered.(Message.content) = js_trim opts.(SendMessageOptions.content)
    /\ length delivered.(Message.attachments) = length opts.(SendMessageOptions.attachments)
    /\ (forall i file, nth_error opts.(SendMessageOptions.attachments) i = Some file ->
          exists a, nth_error delivered.(Message.attachments) i = Some a
                    /\ attachment_reflects file (env.(upload) i).(outcome) a)
    /\ (delivered.(Message.status) = Error
        <-> exists a, In a delivered.(Message.attachments) /\ a.(Attachment.status) = Error)
    /\ (delivered.(Message.status) = Sent \/ delivered.(Message.status) = Error).
Proof.
  intros cid.
  unfold sendMessage. rewrite (eqb_nonempty _ Hne).
  unfold bind at 1. rewrite send_speculate_eq. cbv zeta.
  unfold send_insert. rewrite Hins. unfold bind at 1 2. simpl.
  unfold bind at 1.
  match goal with
  | |- context [upload_attachments ?a ?b ?c ?d 0 ?f ?s1] =>
      pose proof (upload_attachments_spec a b c d f 0 s1) as Hup;
      destruct (upload_attachments a b c d 0 f s1) as [[uploaded s2] l2]
  end.
  destruct Hup as [Hm [_ [Hl Hn]]]. simpl in Hm.
  unfold send_reconcile. unfold_m. simpl.
  set (delivered := delivered_message _ _ _ uploaded).
  exists delivered.
  split; [|split; [reflexivity | split; [reflexivity |]]].
  - rewrite Hm. apply replace_temporary_appended; [reflexivity | exact Hfresh].
  - unfold delivered. rewrite delivered_attachments.
    split; [exact Hl | split; [exact Hn |]].
    unfold delivered_message, formatMessage. simpl.
    rewrite <- has_error_spec.
    destruct (has_error uploaded);
      (split; [split; intros; first [reflexivity | discriminate] | auto]).
Qed.

Lemma attachment_outcomes_contained_witness :
  let env := send_env_ok stub_row_failed in
  js_trim stub_options.(SendMessageOptions.content) <> ""
  /\ env.(insert) = Inserted "m-1" "t2"
  /\ (forall m, In m (obj_get_list stub_options.(SendMessageOptions.conversationId)
                        state_0.(messagesByConversation)) ->
                m.(Message.id) <> env.(temporaryId))
  /\ (let cid := stub_options.(SendMessageOptions.conversationId) in
      let '(_, s', _) := sendMessage (Some user_u1) stub_options env state_0 in
      exists delivered,
        obj_get_list cid s'.(messagesByConversation)
          = obj_get_list cid state_0.(messagesByConversation) ++ [delivered]
        /\ delivered.(Message.id) = "m-1"
        /\ delivered.(Message.content) = js_trim stub_options.(SendMessageOptions.content)
        /\ length delivered.(Message.attachments)
           = length stub_options.(SendMessageOptions.attachments)
        /\ (forall i file, nth_error stub_options.(SendMessageOptions.attachments) i = Some file ->
              exists a, nth_error delivered.(Message.attachments) i = Some a
                        /\ attachment_reflects file (env.(upload) i).(outcome) a)
        /\ (delivered.(Message.status) = Error
            <-> exists a, In a delivered.(Message.attachments)
                          /\ a.(Attachment.status) = Error)
        /\ (delivered.(Message.status) = Sent \/ delivered.(Message.status) = Error)).
Proof.
  intros env.
  assert (H1 : js_trim stub_options.(SendMessageOptions.content) <> "") by discriminate.
  assert (H2 : env.(insert) = Inserted "m-1" "t2") by reflexivity.
  assert (H3 : forall m, In m (obj_get_list stub_options.(SendMessageOptions.conversationId)
                                 state_0.(messagesByConversation)) ->
                         m.(Message.id) <> env.(temporaryId)) by (intros m []).
  split; [exact H1 | split; [exact H2 | split; [exact H3 |]]].
  exact (attachment_outcomes_contained user_u1 stub_options env state_0 "m-1" "t2" H1 H2 H3).
Defined.

(* ------------------------------------------------------------------ *)
(** ** Reconciliation against a push of the same row *)

(** When the push of the sent row is handled after the reconciliation, the
    message appears once, under its server id. *)
Lemma push_after_reconcile_single :
  map Message.id
    (obj_get_list "c1"
       (final_state (onMessageInsert user_u1 stored_row_m1 (Some []))
          (final_state (sendMessage (Some user_u1) stub_options (send_env_ok stub_row_stored))
             state_0)).(messagesByConversation))
  = ["m-1"].
Proof. vm_compute. reflexivity. Qed.

(** C1: when the push of the sent row is handled between the message-row
    insert and the reconciliation (here while the attachment is uploaded),
    the push appends the row under id [m-1] and the reconciliation then
    rewrites the temporary entry to [m-1] as well: the list holds [m-1]
    twice. *)
Theorem push_before_reconcile_duplicates :
  map Message.id
    (obj_get_list "c1"
       (final_state (send_with_push_before_reconcile user_u1 stub_options
                       (send_env_ok stub_row_stored) (Some []))
          state_0).(messagesByConversation))
  = ["m-1"; "m-1"].
Proof. vm_compute. reflexivity. Qed.

(* ------------------------------------------------------------------ *)
(** ** Further properties of the hook *)

(** A successful directory fetch replaces the conversation list with the
    formatted rows and clears the loading flag.  It keeps the message cache
    and any earlier error string.  It selects the first conversation only
    when nothing was selected and the list is non-empty; an existing
    selection is kept. *)
Theorem fetchConversations_success (u : MessagingUser.t) (rows : list ConversationRow.t)
  (s : state) (Hid : u.(MessagingUser.id) <> "") :
  let s' := final_state (fetchConversations (Some u) (inr rows)) s in
  let formatted := map (fun r => mapConversation r (Some u.(MessagingUser.id))) rows in
  s'.(conversations) = formatted
  /\ s'.(messagesByConversation) = s.(messagesByConversation)
  /\ s'.(loadingConversations) = false
  /\ s'.(error) = s.(error)
  /\ s'.(selectedConversationId)
     = match formatted with
       | c :: _ => if falsy s.(selectedConversationId) then Some c.(Conversation.id)
                   else s.(selectedConversationId)
       | [] => s.(selectedConversationId)
       end.
Proof.
  unfold fetchConversations. rewrite (eqb_nonempty _ Hid). unfold_m. simpl.
  destruct rows as [|r rows]; simpl; [repeat split|].
  destruct (falsy (selectedConversationId s)); simpl; repeat split.
Qed.

Lemma fetchConversations_success_witness :
  user_u1.(MessagingUser.id) <> ""
  /\ (let s' := final_state (fetchConversations (Some user_u1) (inr [])) state_0 in
      let formatted := map (fun r => mapConversation r (Some user_u1.(MessagingUser.id))) [] in
      s'.(conversations) = formatted
      /\ s'.(messagesByConversation) = state_0.(messagesByConversation)
      /\ s'.(loadingConversations) = false
      /\ s'.(error) = state_0.(error)
      /\ s'.(selectedConversationId)
         = match formatted with
           | c :: _ => if falsy state_0.(selectedConversationId) then Some c.(Conversation.id)
                       else state_0.(selectedConversationId)
           | [] => state_0.(selectedConversationId)
           end).
Proof.
  assert (H : user_u1.(MessagingUser.id) <> "") by discriminate.
  split; [exact H | exact (fetchConversations_success user_u1 [] state_0 H)].
Defined.

(** Without a signed-in user (none, or one with an empty id) both fetches
    return at once: no state change, no setter, no network call. *)
Theorem fetch_without_user_noop (currentUser : option MessagingUser.t)
  (Hnone : currentUser = None
           \/ exists u, currentUser = Some u /\ u.(MessagingUser.id) = "") :
  forall s conversationResponse conversationId messageResponse,
    fetchConversations currentUser conversationResponse s = (tt, s, [])
    /\ fetchMessages currentUser conversationId messageResponse s = (tt, s, []).
Proof.
  intros s cr cid mr.
  destruct Hnone as [-> | [u [-> Hid]]]; [split; reflexivity|].
  unfold fetchConversations, fetchMessages. rewrite Hid. split; reflexivity.
Qed.

Lemma fetch_without_user_noop_witness :
  (None = @None MessagingUser.t
   \/ exists u, None = Some u /\ u.(MessagingUser.id) = "")
  /\ fetchConversations None (inr []) state_0 = (tt, state_0, [])
  /\ fetchMessages None "c1" (inr []) state_0 = (tt, state_0, []).
Proof.
  assert (H : None = @None MessagingUser.t
              \/ exists u, None = Some u /\ u.(MessagingUser.id) = "") by (left; reflexivity).
  split; [exact H | exact (fetch_without_user_noop None H state_0 (inr []) "c1" (inr []))].
Defined.

(** A successful message fetch does not clear an earlier error string and
    leaves the directory and the selection as they were; it clears the
    message loading flag. *)
Theorem fetchMessages_success_frame (u : MessagingUser.t) (conversationId : string)
  (rows : list MessageRow.t) (s : state) (Hid : u.(MessagingUser.id) <> "") :
  let s' := final_state (fetchMessages (Some u) conversationId (inr rows)) s in
  s'.(error) = s.(error)
  /\ s'.(conversations) = s.(conversations)
  /\ s'.(selectedConversationId) = s.(selectedConversationId)
  /\ s'.(loadingMessages) = false.
Proof.
  unfold fetchMessages. rewrite (eqb_nonempty _ Hid). unfold_m. simpl. repeat split.
Qed.

Lemma fetchMessages_success_frame_witness :
  user_u1.(MessagingUser.id) <> ""
  /\ (let s' := final_state (fetchMessages (Some user_u1) "c1" (inr []))
                  (set_error state_0 (Some "old")) in
      s'.(error) = Some "old"
      /\ s'.(conversations) = state_0.(conversations)
      /\ s'.(selectedConversationId) = state_0.(selectedConversationId)
      /\ s'.(loadingMessages) = false).
Proof.
  assert (H : user_u1.(MessagingUser.id) <> "") by discriminate.
  split; [exact H | exact (fetchMessages_success_frame user_u1 "c1" [] _ H)].
Defined.

Lemma existsb_id_false (l : list Message.t) (i : string) :
  (forall m, In m l -> m.(Message.id) <> i) ->
  existsb (fun m => String.eqb m.(Message.id) i) l = false.
Proof.
  intros H. destruct (existsb _ l) eqn:E; [|reflexivity].
  apply existsb_exists in E as [m [Hm Heq]]. apply String.eqb_eq in Heq.
  exfalso. exact (H m Hm Heq).
Qed.

Lemma promote_absent (cid : string) (m : Message.t) (stamp : string)
  (cs : list Conversation.t) :
  (forall c, In c cs -> c.(Conversation.id) <> cid) ->
  promote_conversation cid m stamp cs = cs.
Proof.
  intros H. unfold promote_conversation.
  destruct (find _ cs) as [c|] eqn:E; [|reflexivity].
  apply find_some in E as [Hin Heq]. apply String.eqb_eq in Heq.
  exfalso. exact (H c Hin Heq).
Qed.

(** A pushed message whose id is not yet in its conversation's cached list
    is appended at the end of that list (status [sent]); the other
    conversations' lists are untouched; and when the conversation is not in
    the directory, the directory is left as it is. *)
Theorem push_new_message_appended (u : MessagingUser.t) (row : MessageRow.t)
  (attachmentRows : option (list AttachmentRow.t)) (s : state)
  (Hnew : forall m, In m (obj_get_list row.(MessageRow.conversation_id)
                            s.(messagesByConversation)) ->
                    m.(Message.id) <> row.(MessageRow.id)) :
  let cid := row.(MessageRow.conversation_id) in
  let participants := participants_of s.(conversations) cid in
  let fm := formatMessage (with_attachment_rows row attachmentRows) participants
              (user_fallback participants u) Sent None in
  let s' := final_state (onMessageInsert u row attachmentRows) s in
  obj_get_list cid s'.(messagesByConversation) = obj_get_list cid s.(messagesByConversation) ++ [fm]
  /\ (forall k, k <> cid -> obj_get k s'.(messagesByConversation) = obj_get k s.(messagesByConversation))
  /\ ((forall c, In c s.(conversations) -> c.(Conversation.id) <> cid) ->
      s'.(conversations) = s.(conversations)).
Proof.
  intros cid participants fm s'. unfold s'. rewrite onMessageInsert_state. cbv zeta. simpl.
  unfold merge_inserted_message.
  replace (existsb _ _) with false by (symmetry; apply existsb_id_false; exact Hnew).
  split; [|split].
  - apply obj_get_list_set_eq.
  - intros k Hk. apply obj_get_set_neq. intros E. apply Hk. unfold cid. now symmetry.
  - apply promote_absent.
Qed.

Lemma push_new_message_appended_witness :
  (forall m, In m (obj_get_list stored_row_m1.(MessageRow.conversation_id)
                     state_0.(messagesByConversation)) ->
             m.(Message.id) <> stored_row_m1.(MessageRow.id))
  /\ (let cid := stored_row_m1.(MessageRow.conversation_id) in
      let participants := participants_of state_0.(conversations) cid in
      let fm := formatMessage (with_attachment_rows stored_row_m1 None) participants
                  (user_fallback participants user_u1) Sent None in
      let s' := final_state (onMessageInsert user_u1 stored_row_m1 None) state_0 in
      obj_get_list cid s'.(messagesByConversation)
        = obj_get_list cid state_0.(messagesByConversation) ++ [fm]
      /\ (forall k, k <> cid ->
             obj_get k s'.(messagesByConversation) = obj_get k state_0.(messagesByConversation))
      /\ ((forall c, In c state_0.(conversations) -> c.(Conversation.id) <> cid) ->
          s'.(conversations) = state_0.(conversations))).
Proof.
  assert (H : forall m, In m (obj_get_list stored_row_m1.(MessageRow.conversation_id)
                                state_0.(messagesByConversation)) ->
                        m.(Message.id) <> stored_row_m1.(MessageRow.id)) by (intros m []).
  split; [exact H | exact (push_new_message_appended user_u1 stored_row_m1 None state_0 H)].
Defined.

(** A pushed message whose id is already in its conversation's cached list
    leaves the message cache unchanged, but the conversation is still moved
    to the front of the directory with the pushed message as its last
    message. *)
Theorem push_known_message_still_promotes (u : MessagingUser.t) (row : MessageRow.t)
  (attachmentRows : option (list AttachmentRow.t)) (s : state)
  (Hdup : exists m, In m (obj_get_list row.(MessageRow.conversation_id)
                            s.(messagesByConversation))
                    /\ m.(Message.id) = row.(MessageRow.id))
  (Hin : exists c, In c s.(conversations)
                   /\ c.(Conversation.id) = row.(MessageRow.conversation_id)) :
  let cid := row.(MessageRow.conversation_id) in
  let participants := participants_of s.(conversations) cid in
  let fm := formatMessage (with_attachment_rows row attachmentRows) participants
              (user_fallback participants u) Sent None in
  let s' := final_state (onMessageInsert u row attachmentRows) s in
  s'.(messagesByConversation) = s.(messagesByConversation)
  /\ at_front cid fm s.(conversations) s'.(conversations).
Proof.
  intros cid participants fm s'. unfold s'. rewrite onMessageInsert_state. cbv zeta. simpl.
  split.
  - unfold merge_inserted_message.
    destruct Hdup as [m [Hm Hid]].
    replace (existsb _ _) with true; [reflexivity|].
    symmetry. apply existsb_exists. exists m. split; [exact Hm|].
    apply String.eqb_eq. exact Hid.
  - now apply promote_at_front.
Qed.

Lemma push_known_message_still_promotes_witness :
  (exists m, In m (obj_get_list stored_row_m1.(MessageRow.conversation_id)
                     state_with_m1.(messagesByConversation))
             /\ m.(Message.id) = stored_row_m1.(MessageRow.id))
  /\ (exists c, In c state_with_m1.(conversations)
                /\ c.(Conversation.id) = stored_row_m1.(MessageRow.conversation_id))
  /\ (let cid := stored_row_m1.(MessageRow.conversation_id) in
      let participants := participants_of state_with_m1.(conversations) cid in
      let fm := formatMessage (with_attachment_rows stored_row_m1 None) participants
                  (user_fallback participants user_u1) Sent None in
      let s' := final_state (onMessageInsert user_u1 stored_row_m1 None) state_with_m1 in
      s'.(messagesByConversation) = state_with_m1.(messagesByConversation)
      /\ at_front cid fm state_with_m1.(conversations) s'.(conversations)).
Proof.
  assert (H1 : exists m, In m (obj_get_list stored_row_m1.(MessageRow.conversation_id)
                                 state_with_m1.(messagesByConversation))
                         /\ m.(Message.id) = stored_row_m1.(MessageRow.id))
    by (eexists; split; [left; reflexivity | reflexivity]).
  assert (H2 : exists c, In c state_with_m1.(conversations)
                         /\ c.(Conversation.id) = stored_row_m1.(MessageRow.conversation_id))
    by (exists conversation_c1; split; [right; left; reflexivity | reflexivity]).
  split; [exact H1 | split; [exact H2 |]].
  exact (push_known_message_still_promotes user_u1 stored_row_m1 None state_with_m1 H1 H2).
Defined.

Lemma obj_set_twice {V} (k : string) (v w : V) (o : obj V) :
  obj_set k v (obj_set k w o) = obj_set k v o.
Proof.
  induction o as [|[k' v'] r IH]; simpl.
  - now rewrite String.eqb_refl.
  - destruct (String.eqb k k') eqn:E; simpl.
    + now rewrite String.eqb_refl.
    + now rewrite E, IH.
Qed.

Lemma find_obj_set {V} (p : string * V -> bool) (k : string) (v w : V) (o : obj V) :
  find p o = Some (k, w) -> p (k, v) = true -> find p (obj_set k v o) = Some (k, v).
Proof.
  intros Hf Hp. induction o as [|[k' v'] r IH]; simpl in *; [discriminate|].
  destruct (p (k', v')) eqn:E.
  - injection Hf as -> ->. rewrite String.eqb_refl. simpl. now rewrite Hp.
  - destruct (String.eqb k k') eqn:Ek; simpl.
    + now rewrite Hp.
    + rewrite E. now apply IH.
Qed.

Lemma merge_inserted_attachment_eq (a : Attachment.t) (p : obj (list Message.t)) :
  merge_inserted_attachment a p =
  match find (fun e => existsb (fun m => String.eqb m.(Message.id) a.(Attachment.messageId))
                         (snd e)) p with
  | None => p
  | Some (cid, ms) => obj_set cid (attach_to_messages a ms) p
  end.
Proof. reflexivity. Qed.

Lemma attach_to_messages_ids (a : Attachment.t) (ms : list Message.t) :
  map Message.id (attach_to_messages a ms) = map Message.id ms.
Proof.
  induction ms as [|m r IH]; simpl; [reflexivity|].
  rewrite IH. now destruct (String.eqb _ _).
Qed.

Lemma existsb_map_id (i : string) (ms : list Message.t) :
  existsb (fun m => String.eqb m.(Message.id) i) ms
  = existsb (fun x => String.eqb x i) (map Message.id ms).
Proof. induction ms as [|m r IH]; simpl; congruence. Qed.

Lemma attach_to_messages_twice (a : Attachment.t) (ms : list Message.t) :
  attach_to_messages a (attach_to_messages a ms) = attach_to_messages a ms.
Proof.
  unfold attach_to_messages. rewrite map_map. apply map_ext. intros m.
  destruct (String.eqb m.(Message.id) a.(Attachment.messageId)) eqn:E; simpl;
    rewrite ?E; [|reflexivity].
  rewrite filter_app, filter_twice. simpl. rewrite String.eqb_refl. simpl.
  rewrite app_nil_r. reflexivity.
Qed.

Lemma merge_inserted_attachment_twice (a : Attachment.t) (p : obj (list Message.t)) :
  merge_inserted_attachment a (merge_inserted_attachment a p) = merge_inserted_attachment a p.
Proof.
  rewrite !merge_inserted_attachment_eq.
  destruct (find _ p) as [[cid ms]|] eqn:E; cbv iota beta; [|rewrite E; reflexivity].
  erewrite find_obj_set; [| exact E |].
  - rewrite attach_to_messages_twice, obj_set_twice. reflexivity.
  - apply find_some in E as [_ Hex]. simpl in *.
    rewrite existsb_map_id in *. rewrite attach_to_messages_ids. exact Hex.
Qed.

(** The attachments INSERT handler is idempotent on the hook's state:
    handling the same attachment row twice gives the state that handling it
    once gives (the attachment is not listed twice on its message). *)
Theorem attachment_push_idempotent (row : AttachmentRow.t) (s : state) :
  final_state (onAttachmentInsert row) (final_state (onAttachmentInsert row) s)
  = final_state (onAttachmentInsert row) s.
Proof.
  unfold onAttachmentInsert, final_state, setMessagesByConversation. simpl.
  rewrite merge_inserted_attachment_twice. reflexivity.
Qed.

(** For a signed-in user and a message that is not blank, [sending] is
    raised by the optimistic phase and is lowered again when [sendMessage]
    finishes, whether the message insert fails or succeeds (and whatever the
    attachment uploads do). *)
Theorem send_lowers_sending_flag (u : MessagingUser.t) (opts : SendMessageOptions.t)
  (env : send_env) (s : state)
  (Hne : js_trim opts.(SendMessageOptions.content) <> "") :
  (final_state (send_speculate u opts env) s).(sending) = true
  /\ (final_state (sendMessage (Some u) opts env) s).(sending) = false.
Proof.
  split.
  - unfold final_state. rewrite send_speculate_eq. reflexivity.
  - unfold final_state, sendMessage. rewrite (eqb_nonempty _ Hne).
    unfold bind at 1. rewrite send_speculate_eq. cbv zeta.
    unfold send_insert. destruct (insert env) as [message | sid cat]; unfold_m; simpl;
      [reflexivity|].
    match goal with
    | |- context [upload_attachments ?c ?r ?ca ?res 0 ?fs ?s1] =>
        destruct (upload_attachments c r ca res 0 fs s1) as [[up s2] l2]
    end.
    reflexivity.
Qed.

Lemma send_lowers_sending_flag_witness :
  js_trim (SendMessageOptions.content stub_options) <> ""
  /\ (final_state (send_speculate user_u1 stub_options (send_env_ok stub_row_stored)) state_0)
       .(sending) = true
  /\ (final_state (sendMessage (Some user_u1) stub_options (send_env_ok stub_row_stored)) state_0)
       .(sending) = false.
Proof.
  assert (H : js_trim (SendMessageOptions.content stub_options) <> "") by discriminate.
  split; [exact H |].
  exact (send_lowers_sending_flag user_u1 stub_options (send_env_ok stub_row_stored) state_0 H).
Defined.

(** The attachment loop of [sendMessage] uploads every file once, in order,
    under its normalised storage path, and writes an attachment row exactly
    for the uploads that succeeded, with the message id and the path the
    upload returned; a failed upload writes no row. *)
Theorem upload_loop_calls (cid : string) (inserted : MessageRow.t) (createdAt : string)
  (results : nat -> upload_env) (files : list File.t) :
  forall index s,
  let log := effects (upload_attachments cid inserted createdAt results index files) s in
  upload_calls log
    = mapi_from (fun i file => storage_path cid inserted (results i).(clock) i file) index files
  /\ row_calls log
    = map (fun path => (inserted.(MessageRow.id), path)) (stored_paths results index files).
Proof.
  unfold effects, upload_calls, row_calls.
  induction files as [|file rest IH]; intros index s.
  - split; reflexivity.
  - simpl. unfold_m. simpl.
    destruct (outcome (results index)) as [msg | path msg | path rid rca]; simpl;
      match goal with
      | |- context [upload_attachments cid inserted createdAt results (S index) rest ?s1] =>
          specialize (IH (S index) s1);
          destruct (upload_attachments cid inserted createdAt results (S index) rest s1)
            as [[others s2] l2]
      end;
      simpl; rewrite ?app_nil_r; destruct IH as [IH1 IH2]; rewrite IH1, IH2; split; reflexivity.
Qed.

Lemma replace_temporary_comm (cid tA tB : string) (fA fB : Message.t -> Message.t)
  (p : obj (list Message.t))
  (Ht : tA <> tB)
  (HA : forall m, (fA m).(Message.id) <> tB)
  (HB : forall m, (fB m).(Message.id) <> tA) :
  replace_temporary cid tB fB (replace_temporary cid tA fA p)
  = replace_temporary cid tA fA (replace_temporary cid tB fB p).
Proof.
  unfold replace_temporary. rewrite !obj_get_list_set_eq, !obj_set_twice.
  f_equal. rewrite !map_map. apply map_ext. intros m. cbv beta.
  destruct (String.eqb m.(Message.id) tA) eqn:EA, (String.eqb m.(Message.id) tB) eqn:EB.
  - apply String.eqb_eq in EA, EB. congruence.
  - rewrite ?EA. destruct (String.eqb (fA m).(Message.id) tB) eqn:E; [|reflexivity].
    apply String.eqb_eq in E. exfalso. exact (HA m E).
  - rewrite ?EB. destruct (String.eqb (fB m).(Message.id) tA) eqn:E; [|reflexivity].
    apply String.eqb_eq in E. exfalso. exact (HB m E).
  - now rewrite ?EA, ?EB.
Qed.

(** Two sends to the same conversation that both reached their
    reconciliation leave the same message cache whichever of them is
    reconciled first, as long as their temporary ids differ and neither
    server id equals the other send's temporary id. *)
Theorem reconcile_order_irrelevant (optsA optsB : SendMessageOptions.t)
  (envA envB : send_env) (spA spB : Participant.t) (rowA rowB : MessageRow.t)
  (upA upB : list Attachment.t) (s : state)
  (Hcid : optsA.(SendMessageOptions.conversationId) = optsB.(SendMessageOptions.conversationId))
  (Ht : envA.(temporaryId) <> envB.(temporaryId))
  (HA : rowA.(MessageRow.id) <> envB.(temporaryId))
  (HB : rowB.(MessageRow.id) <> envA.(temporaryId)) :
  (final_state (send_reconcile optsB envB spB rowB upB)
     (final_state (send_reconcile optsA envA spA rowA upA) s)).(messagesByConversation)
  = (final_state (send_reconcile optsA envA spA rowA upA)
       (final_state (send_reconcile optsB envB spB rowB upB) s)).(messagesByConversation).
Proof.
  unfold send_reconcile, getParticipants. unfold_m. simpl. rewrite <- Hcid.
  rewrite !participants_of_promote.
  apply replace_temporary_comm; [exact Ht | intros _; exact HA | intros _; exact HB].
Qed.

Lemma reconcile_order_irrelevant_witness :
  let envA := mkSendEnv "tmp-1" "t1" (Inserted "m-1" "t2")
                (fun _ => mkUploadEnv "1700" (UploadFailed "x")) in
  let envB := mkSendEnv "tmp-2" "t1" (Inserted "m-2" "t2")
                (fun _ => mkUploadEnv "1700" (UploadFailed "x")) in
  let rowA := MessageRow.mk "m-1" "c1" "hi" "t2" "u1" "borrower" None None in
  let rowB := MessageRow.mk "m-2" "c1" "yo" "t3" "u1" "borrower" None None in
  let s := set_messagesByConversation state_0
             [("c1", [optimistic_message hi_options envA (profile_of_user user_u1);
                      optimistic_message hi_options envB (profile_of_user user_u1)])] in
  hi_options.(SendMessageOptions.conversationId) = hi_options.(SendMessageOptions.conversationId)
  /\ envA.(temporaryId) <> envB.(temporaryId)
  /\ rowA.(MessageRow.id) <> envB.(temporaryId)
  /\ rowB.(MessageRow.id) <> envA.(temporaryId)
  /\ (final_state (send_reconcile hi_options envB (profile_of_user user_u1) rowB [])
        (final_state (send_reconcile hi_options envA (profile_of_user user_u1) rowA []) s))
       .(messagesByConversation)
     = (final_state (send_reconcile hi_options envA (profile_of_user user_u1) rowA [])
          (final_state (send_reconcile hi_options envB (profile_of_user user_u1) rowB [])
             s)).(messagesByConversation).
Proof.
  intros envA envB rowA rowB s.
  assert (H1 : hi_options.(SendMessageOptions.conversationId)
               = hi_options.(SendMessageOptions.conversationId)) by reflexivity.
  assert (H2 : envA.(temporaryId) <> envB.(temporaryId)) by discriminate.
  assert (H3 : rowA.(MessageRow.id) <> envB.(temporaryId)) by discriminate.
  assert (H4 : rowB.(MessageRow.id) <> envA.(temporaryId)) by discriminate.
  split; [exact H1 | split; [exact H2 | split; [exact H3 | split; [exact H4 |]]]].
  exact (reconcile_order_irrelevant hi_options hi_options envA envB
           (profile_of_user user_u1) (profile_of_user user_u1) rowA rowB [] [] s
           H1 H2 H3 H4).
Defined.





Lemma collect_topics_spec (ms : list Message.t) :
  forall acc, NoDup acc ->
  NoDup (collect_topics acc ms)
  /\ (forall t, In t (collect_topics acc ms) <->
        In t acc \/ exists m, In m ms /\ m.(Message.topic) = Some t /\ t <> "").
Proof.
  induction ms as [|m rest IH]; intros acc Hacc; simpl.
  - split; [exact Hacc|]. intros t. split; [now left|]. intros [H | [m [[] _]]]; exact H.
  - set (acc' := match Message.topic m with
                 | Some t => if String.eqb t "" then acc
                             else if existsb (String.eqb t) acc then acc else acc ++ [t]
                 | None => acc
                 end).
    assert (Hacc' : NoDup acc' /\ forall t, In t acc' <->
                      In t acc \/ (Message.topic m = Some t /\ t <> "")).
    { unfold acc'. destruct (Message.topic m) as [t0|] eqn:Et.
      - destruct (String.eqb t0 "") eqn:E0.
        + apply String.eqb_eq in E0. subst t0. split; [exact Hacc|].
          intros t. split; [now left|]. intros [H | [Ht Hne]]; [exact H|].
          injection Ht as <-. contradiction.
        + destruct (existsb (String.eqb t0) acc) eqn:Ex.
          * apply existsb_exists in Ex as [t1 [Ht1 Heq]]. apply String.eqb_eq in Heq. subst t1.
            split; [exact Hacc|]. intros t. split; [now left|].
            intros [H | [Ht _]]; [exact H|]. injection Ht as <-. exact Ht1.
          * split.
            -- apply NoDup_app; [exact Hacc | constructor; [intros []| constructor] |].
               intros x Hx [-> | []].
               assert (existsb (String.eqb x) acc = true)
                 by (apply existsb_exists; exists x; split; [exact Hx | apply String.eqb_refl]).
               congruence.
            -- intros t. rewrite in_app_iff. simpl. split.
               ++ intros [H | [<- | []]]; [now left|]. right. split; [reflexivity|].
                  intros E. subst t0. discriminate.
               ++ intros [H | [Ht Hne]]; [now left|]. injection Ht as <-. now right; left.
      - split; [exact Hacc|]. intros t. split; [now left|].
        intros [H | [Ht _]]; [exact H | discriminate]. }
    destruct Hacc' as [Hnd Hin]. destruct (IH acc' Hnd) as [IH1 IH2].
    split; [exact IH1|]. intros t. rewrite IH2, Hin. split.
    + intros [[H | [Ht Hne]] | [m' [Hm' [Ht Hne]]]].
      * now left.
      * right. exists m. auto.
      * right. exists m'. auto.
    + intros [H | [m' [[<- | Hm'] [Ht Hne]]]].
      * now left; left.
      * now left; right.
      * right. exists m'. auto.
Qed.

Lemma filter_filter_implied {A} (p q : A -> bool) (l : list A) :
  (forall x, q x = true -> p x = true) -> filter q (filter p l) = filter q l.
Proof.
  intros H. induction l as [|x r IH]; simpl; [reflexivity|].
  destruct (p x) eqn:Ep; simpl.
  - now rewrite IH.
  - destruct (q x) eqn:Eq; [|exact IH].
    rewrite (H x Eq) in Ep. discriminate.
Qed.

(** The topic list offered by the conversation view has no repeated entry,
    and a string is in it exactly when some message of the list carries it
    as a non-empty topic. *)
Theorem topics_distinct_and_complete (messages : list Message.t) :
  NoDup (topics messages)
  /\ (forall t, In t (topics messages) <->
        exists m, In m messages /\ m.(Message.topic) = Some t /\ t <> "").
Proof.
  destruct (collect_topics_spec messages [] (NoDup_nil _)) as [H1 H2].
  split; [exact H1|]. intros t. unfold topics. rewrite H2. split.
  - intros [[] | H]; exact H.
  - intros H. now right.
Qed.

(** In the conversation view: every offered topic, once selected, shows at
    least one message on the "all" tab; with a real topic selected the
    "topics" tab shows the same messages as the "all" tab; and the "direct"
    tab never shows a message of the current user. *)
Theorem filteredMessages_tabs (messages : list Message.t) :
  (forall t, In t (topics messages) -> filteredMessages messages "all" t <> [])
  /\ (forall t, t <> "all" -> t <> "" ->
        filteredMessages messages "topics" t = filteredMessages messages "all" t)
  /\ (forall selectedTopic m, In m (filteredMessages messages "direct" selectedTopic) ->
        m.(Message.sender).(Participant.isCurrentUser) = false).
Proof.
  split; [|split].
  - intros t Ht. apply topics_distinct_and_complete in Ht as [m [Hm [Htop _]]].
    unfold filteredMessages. simpl. rewrite filter_true.
    intros Hnil. assert (In m (filter (topic_filter t) messages)) as Hin.
    { apply filter_In. split; [exact Hm|]. unfold topic_filter.
      destruct (String.eqb t "all"); [reflexivity|]. rewrite Htop. apply String.eqb_refl. }
    rewrite Hnil in Hin. exact Hin.
  - intros t Hall Hne. unfold filteredMessages. simpl. rewrite filter_true.
    apply filter_filter_implied. intros m Hm. unfold topic_filter in Hm.
    rewrite (proj2 (String.eqb_neq t "all") Hall) in Hm.
    unfold tab_filter. simpl. unfold truthy, falsy.
    destruct (Message.topic m) as [t'|]; [|discriminate].
    apply String.eqb_eq in Hm. subst t'. now rewrite (proj2 (String.eqb_neq t "") Hne).
  - intros sel m Hm. unfold filteredMessages in Hm.
    apply filter_In in Hm as [Hm _]. apply filter_In in Hm as [_ Hd].
    unfold tab_filter in Hd. simpl in Hd. now apply negb_true_iff in Hd.
Qed.

(** The send button of the conversation view does nothing (no call, no
    change to its own state) while the text is blank or no conversation is
    selected.  When it does call [sendMessage], the call carries the raw
    text, the selected topic unless it is "all", and the pending files; the
    text box and the pending files are cleared; and for a signed-in user
    the call always reaches the message insert, with the trimmed text. *)
Theorem handleSendMessage_spec (ui : ui_state) (selected : option string) :
  ((js_trim ui.(messageText) = "" \/ falsy selected = true) ->
     handleSendMessage ui selected = (None, ui))
  /\ (forall opts ui', handleSendMessage ui selected = (Some opts, ui') ->
        selected = Some opts.(SendMessageOptions.conversationId)
        /\ opts.(SendMessageOptions.conversationId) <> ""
        /\ opts.(SendMessageOptions.content) = ui.(messageText)
        /\ js_trim ui.(messageText) <> ""
        /\ opts.(SendMessageOptions.topic)
             = (if String.eqb ui.(selectedTopic) "all" then None else Some ui.(selectedTopic))
        /\ opts.(SendMessageOptions.attachments) = ui.(pendingAttachments)
        /\ ui' = mkUi "" ui.(activeTab) ui.(selectedTopic) []
        /\ forall u env s,
             In (InsertMessage opts.(SendMessageOptions.conversationId) u.(MessagingUser.id)
                   (js_trim ui.(messageText)))
                (effects (sendMessage (Some u) opts env) s)).
Proof.
  unfold handleSendMessage. split.
  - intros [H | H]; [rewrite H | rewrite H, orb_true_r]; reflexivity.
  - intros opts ui' Hh.
    destruct (String.eqb (js_trim (messageText ui)) "") eqn:Et; [discriminate|].
    destruct selected as [c|]; [|discriminate]. simpl in Hh.
    destruct (String.eqb c "") eqn:Ec; [discriminate|].
    injection Hh as <- <-. simpl.
    apply String.eqb_neq in Et. apply String.eqb_neq in Ec.
    split; [reflexivity | split; [exact Ec | split; [reflexivity | split; [exact Et |]]]].
    split; [now destruct (String.eqb (selectedTopic ui) "all") |].
    split; [reflexivity | split; [reflexivity |]].
    intros u env s. unfold effects, sendMessage. simpl.
    rewrite (eqb_nonempty _ Et).
    unfold bind at 1. rewrite send_speculate_eq. cbv zeta.
    unfold send_insert. simpl.
    destruct (insert env) as [message | sid cat]; unfold_m; simpl.
    + repeat (first [now left | right]).
    + match goal with
      | |- context [upload_attachments ?c ?r ?ca ?res 0 ?fs ?s1] =>
          destruct (upload_attachments c r ca res 0 fs s1) as [[up s2] l2]
      end.
      simpl. repeat (first [now left | right]).
Qed.

Lemma filter_indexed_keep_all {A} (p : A -> nat -> bool) (l : list A) :
  forall k, (forall x idx, k <= idx -> p x idx = true) -> filter_indexed p k l = l.
Proof.
  induction l as [|x r IH]; intros k H; simpl; [reflexivity|].
  rewrite (H x k (le_n k)). f_equal. apply IH. intros y idx Hidx. apply H. lia.
Qed.

Lemma filter_indexed_remove {A} (l : list A) (j : nat) :
  forall k, k <= j ->
  filter_indexed (fun _ idx => negb (Nat.eqb idx j)) k l
  = firstn (j - k) l ++ skipn (S (j - k)) l.
Proof.
  induction l as [|x r IH]; intros k Hk; simpl.
  - destruct (j - k); reflexivity.
  - destruct (Nat.eqb k j) eqn:E; simpl.
    + apply Nat.eqb_eq in E. subst k. rewrite Nat.sub_diag. simpl.
      apply filter_indexed_keep_all. intros y idx Hidx.
      apply negb_true_iff, Nat.eqb_neq. lia.
    + apply Nat.eqb_neq in E.
      replace (j - k) with (S (j - S k)) by lia. simpl.
      f_equal. apply IH. lia.
Qed.

(** Removing the pending attachment at [index] leaves the files before it
    and after it, in order; an index past the end leaves the list as it is;
    the rest of the view's state is untouched. *)
Theorem removeAttachment_spec (index : nat) (ui : ui_state) :
  let ui' := removeAttachment index ui in
  ui'.(pendingAttachments)
    = firstn index ui.(pendingAttachments) ++ skipn (S index) ui.(pendingAttachments)
  /\ (length ui.(pendingAttachments) <= index -> ui'.(pendingAttachments) = ui.(pendingAttachments))
  /\ ui'.(messageText) = ui.(messageText)
  /\ ui'.(activeTab) = ui.(activeTab)
  /\ ui'.(selectedTopic) = ui.(selectedTopic).
Proof.
  intros ui'.
  assert (H : ui'.(pendingAttachments)
              = firstn index ui.(pendingAttachments) ++ skipn (S index) ui.(pendingAttachments)).
  { unfold ui', removeAttachment. simpl.
    rewrite (filter_indexed_remove _ index 0 (Nat.le_0_l index)), Nat.sub_0_r. reflexivity. }
  split; [exact H|]. split; [|split; [|split]]; try reflexivity.
  intros Hlen. rewrite H, firstn_all2, skipn_all2 by lia. apply app_nil_r.
Qed.

(** A directory row is shown without a last message exactly when its
    [latest_message] list is missing or empty.  When the latest message's
    sender is none of the conversation's participants, the preview
    attributes it to the current user: to the participant flagged as the
    current user, or else to a "You" placeholder. *)
Theorem mapConversation_last_message (row : ConversationRow.t) (currentUserId : option string) :
  ((mapConversation row currentUserId).(Conversation.lastMessage) = None
   <-> (row.(ConversationRow.latest_message) = None
        \/ row.(ConversationRow.latest_message) = Some []))
  /\ (forall r rest,
        row.(ConversationRow.latest_message) = Some (r :: rest) ->
        (forall p, In p row.(ConversationRow.participants) ->
                   p.(ParticipantRow.user_id) <> r.(MessageRow.sender_id)) ->
        exists m, (mapConversation row currentUserId).(Conversation.lastMessage) = Some m
                  /\ m.(Message.sender).(Participant.isCurrentUser) = true).
Proof.
  unfold mapConversation. simpl. split.
  - destruct (ConversationRow.latest_message row) as [[|r rest]|]; split; intros H;
      first [discriminate | now right | now left | reflexivity | destruct H; discriminate].
  - intros r rest Hl Hp. rewrite Hl. eexists. split; [reflexivity|]. simpl.
    unfold find_participant.
    destruct (find _ (map _ _)) as [p|] eqn:E.
    + apply find_some in E as [Hin Heq]. apply in_map_iff in Hin as [pr [<- Hpr]].
      apply String.eqb_eq in Heq. simpl in Heq. exfalso. exact (Hp pr Hpr Heq).
    + destruct (find Participant.isCurrentUser _) as [q|] eqn:Eq; [|reflexivity].
      apply find_some in Eq as [_ Hq]. exact Hq.
Qed.

(** When the message insert fails, the conversation stays at the front of
    the directory with the optimistic message, still [pending], as its
    preview, although the cached copy of that message is marked [error]. *)
Theorem insert_failure_leaves_preview_pending (u : MessagingUser.t)
  (opts : SendMessageOptions.t) (env : send_env) (s : state) (message : option string)
  (Hne : js_trim opts.(SendMessageOptions.content) <> "")
  (Hins : env.(insert) = InsertFailed message)
  (Hin : exists c, In c s.(conversations)
                   /\ c.(Conversation.id) = opts.(SendMessageOptions.conversationId)) :
  let cid := opts.(SendMessageOptions.conversationId) in
  let senderProfile :=
    find_participant u.(MessagingUser.id) (participants_of s.(conversations) cid)
      (profile_of_user u) in
  let optimisticMessage := optimistic_message opts env senderProfile in
  let s' := final_state (sendMessage (Some u) opts env) s in
  at_front cid optimisticMessage s.(conversations) s'.(conversations)
  /\ optimisticMessage.(Message.status) = Pending
  /\ In (Message.with_status optimisticMessage Error)
        (obj_get_list cid s'.(messagesByConversation)).
Proof.
  intros cid senderProfile optimisticMessage s'.
  unfold s', final_state, sendMessage. rewrite (eqb_nonempty _ Hne).
  unfold bind at 1. rewrite send_speculate_eq. cbv zeta.
  unfold send_insert. rewrite Hins. unfold_m. simpl.
  split; [|split].
  - exact (promote_at_front cid optimisticMessage _ Hin).
  - reflexivity.
  - unfold replace_temporary. rewrite !obj_get_list_set_eq.
    apply in_map_iff. exists optimisticMessage. split.
    + simpl. rewrite String.eqb_refl. reflexivity.
    + apply in_or_app. right. now left.
Qed.

Lemma insert_failure_leaves_preview_pending_witness :
  let env := mkSendEnv "tmp-1" "t1" (InsertFailed None)
               (fun _ => mkUploadEnv "1700" (UploadFailed "x")) in
  js_trim hi_options.(SendMessageOptions.content) <> ""
  /\ env.(insert) = InsertFailed None
  /\ (exists c, In c state_0.(conversations)
                /\ c.(Conversation.id) = hi_options.(SendMessageOptions.conversationId))
  /\ (let cid := hi_options.(SendMessageOptions.conversationId) in
      let senderProfile :=
        find_participant user_u1.(MessagingUser.id) (participants_of state_0.(conversations) cid)
          (profile_of_user user_u1) in
      let optimisticMessage := optimistic_message hi_options env senderProfile in
      let s' := final_state (sendMessage (Some user_u1) hi_options env) state_0 in
      at_front cid optimisticMessage state_0.(conversations) s'.(conversations)
      /\ optimisticMessage.(Message.status) = Pending
      /\ In (Message.with_status optimisticMessage Error)
            (obj_get_list cid s'.(messagesByConversation))).
Proof.
  intros env.
  assert (H1 : js_trim hi_options.(SendMessageOptions.content) <> "") by discriminate.
  assert (H2 : env.(insert) = InsertFailed None) by reflexivity.
  assert (H3 : exists c, In c state_0.(conversations)
                         /\ c.(Conversation.id) = hi_options.(SendMessageOptions.conversationId))
    by (exists conversation_c1; split; [right; left; reflexivity | reflexivity]).
  split; [exact H1 | split; [exact H2 | split; [exact H3 |]]].
  exact (insert_failure_leaves_preview_pending user_u1 hi_options env state_0 None H1 H2 H3).
Defined.

(** On the first load, with nothing selected yet: once the directory query
    returns a non-empty list, its first conversation becomes selected, the
    selection effect loads that conversation's messages, and the hook's
    [messages] are those rows, formatted with the first conversation's
    participants. *)
Theorem initial_load_shows_first_conversation (u : MessagingUser.t)
  (r : ConversationRow.t) (rest : list ConversationRow.t) (messageRows : list MessageRow.t)
  (s : state)
  (Hid : u.(MessagingUser.id) <> "")
  (Hsel : falsy s.(selectedConversationId) = true)
  (Hr : r.(ConversationRow.id) <> "") :
  let c := mapConversation r (Some u.(MessagingUser.id)) in
  let s' := final_state (fetchConversations (Some u) (inr (r :: rest)) ;;
                         on_selection_change (Some u) (inr messageRows)) s in
  s'.(selectedConversationId) = Some r.(ConversationRow.id)
  /\ selected_messages s'
     = map (fun m => formatMessage m c.(Conversation.participants)
                       (user_fallback c.(Conversation.participants) u) Sent None)
           messageRows.
Proof.
  intros c s'. unfold s', final_state, fetchConversations, on_selection_change.
  rewrite (eqb_nonempty _ Hid). unfold_m. simpl. rewrite Hsel. simpl.
  rewrite (eqb_nonempty _ Hr). unfold fetchMessages. rewrite (eqb_nonempty _ Hid).
  unfold_m. simpl. split; [reflexivity|].
  unfold selected_messages. simpl. rewrite (eqb_nonempty _ Hr), obj_get_list_set_eq.
  unfold participants_of. simpl. rewrite String.eqb_refl. reflexivity.
Qed.

Lemma initial_load_shows_first_conversation_witness :
  let r := ConversationRow.mk "c1" (Some "Loan") "t0" [] None in
  user_u1.(MessagingUser.id) <> ""
  /\ falsy state_0.(selectedConversationId) = true
  /\ r.(ConversationRow.id) <> ""
  /\ (let c := mapConversation r (Some user_u1.(MessagingUser.id)) in
      let s' := final_state (fetchConversations (Some user_u1) (inr [r]) ;;
                             on_selection_change (Some user_u1) (inr [stored_row_m1])) state_0 in
      s'.(selectedConversationId) = Some r.(ConversationRow.id)
      /\ selected_messages s'
         = map (fun m => formatMessage m c.(Conversation.participants)
                           (user_fallback c.(Conversation.participants) user_u1) Sent None)
               [stored_row_m1]).
Proof.
  intros r.
  assert (H1 : user_u1.(MessagingUser.id) <> "") by discriminate.
  assert (H2 : falsy state_0.(selectedConversationId) = true) by reflexivity.
  assert (H3 : r.(ConversationRow.id) <> "") by discriminate.
  split; [exact H1 | split; [exact H2 | split; [exact H3 |]]].
  exact (initial_load_shows_first_conversation user_u1 r [] [stored_row_m1] state_0 H1 H2 H3).
Defined.

Lemma fetchConversations_no_message_query (currentUser : option MessagingUser.t)
  (response : string + list ConversationRow.t) (s : state) (c : string) :
  ~ In (SelectMessages c) (effects (fetchConversations currentUser response) s).
Proof.
  unfold effects, fetchConversations.
  destruct currentUser as [u|]; [|simpl; tauto].
  destruct (String.eqb (MessagingUser.id u) ""); [simpl; tauto|].
  unfold_m. simpl.
  destruct response as [msg | rows]; simpl; [intuition discriminate|].
  destruct (map _ rows) as [|c0 rest]; simpl; [intuition discriminate|].
  destruct (falsy (selectedConversationId s)); simpl; intuition discriminate.
Qed.

(** [refresh] reloads the directory and then queries the messages of the
    conversation that was selected when its closure was created, and of no
    other: with nothing selected then, it queries no messages, even when
    the reload itself selects the first conversation. *)
Theorem refresh_queries_captured_selection (selectedAtRender : option string)
  (u : MessagingUser.t) (conversationsResponse : string + list ConversationRow.t)
  (messagesResponse : string + list MessageRow.t) (s : state)
  (Hid : u.(MessagingUser.id) <> "") :
  In (SelectConversations u.(MessagingUser.id))
     (effects (refresh selectedAtRender (Some u) conversationsResponse messagesResponse) s)
  /\ forall c,
       In (SelectMessages c)
          (effects (refresh selectedAtRender (Some u) conversationsResponse messagesResponse) s)
       <-> selectedAtRender = Some c /\ c <> "".
Proof.
  unfold refresh, effects, bind at 1 2.
  pose proof (fetchConversations_no_message_query (Some u) conversationsResponse s) as Hno.
  unfold effects in Hno.
  assert (Hsc : forall l s1 tt0,
            fetchConversations (Some u) conversationsResponse s = (tt0, s1, l) ->
            In (SelectConversations u.(MessagingUser.id)) l).
  { intros l s1 tt0 E. unfold fetchConversations in E. rewrite (eqb_nonempty _ Hid) in E.
    unfold_m. simpl in E.
    destruct conversationsResponse as [msg | rows]; simpl in E.
    - injection E as _ _ <-. simpl. tauto.
    - destruct (map _ rows) as [|c0 rest]; [|destruct (falsy _)];
        simpl in E; injection E as _ _ <-; simpl; tauto. }
  destruct (fetchConversations (Some u) conversationsResponse s) as [[[] s1] l1] eqn:E.
  specialize (Hsc l1 s1 tt eq_refl).
  assert (Hm : forall c, In (SelectMessages c)
                 (let '(_, _, l) := match selectedAtRender with
                                    | Some c0 => if String.eqb c0 "" then ret tt
                                                 else fetchMessages (Some u) c0 messagesResponse
                                    | None => ret tt
                                    end s1 in l)
               <-> selectedAtRender = Some c /\ c <> "").
  { intros c. destruct selectedAtRender as [c0|].
    - destruct (String.eqb c0 "") eqn:E0.
      + apply String.eqb_eq in E0. subst c0. simpl.
        split; [tauto|]. intros [Hc Hne]. injection Hc as <-. contradiction.
      + apply String.eqb_neq in E0. unfold fetchMessages. rewrite (eqb_nonempty _ Hid).
        unfold_m. simpl.
        destruct messagesResponse as [msg | rows]; simpl;
          (split; [intros H;
                   repeat match goal with Hor : _ \/ _ |- _ => destruct Hor as [H | H] end;
                   first [discriminate H | contradiction
                         | injection H as ->; split; [reflexivity | exact E0]]
                  | intros [Hc _]; injection Hc as ->; right; left; reflexivity]).
    - simpl. split; [tauto|]. intros [Hc _]; discriminate. }
  destruct (match selectedAtRender with
            | Some c0 => if String.eqb c0 "" then ret tt
                         else fetchMessages (Some u) c0 messagesResponse
            | None => ret tt
            end s1) as [[[] s2] l2] eqn:E2.
  cbv beta iota. split.
  - apply in_or_app. now left.
  - intros c. rewrite in_app_iff, <- (Hm c). split.
    + intros [H | H]; [exfalso; exact (Hno c H) | exact H].
    + intros H. now right.
Qed.

Lemma refresh_queries_captured_selection_witness :
  user_u1.(MessagingUser.id) <> ""
  /\ In (SelectConversations user_u1.(MessagingUser.id))
        (effects (refresh None (Some user_u1) (inr [ConversationRow.mk "c1" None "t0" [] None])
                    (inr [])) state_0)
  /\ forall c,
       In (SelectMessages c)
          (effects (refresh None (Some user_u1) (inr [ConversationRow.mk "c1" None "t0" [] None])
                      (inr [])) state_0)
       <-> None = Some c /\ c <> "".
Proof.
  assert (H : user_u1.(MessagingUser.id) <> "") by discriminate.
  split; [exact H|].
  exact (refresh_queries_captured_selection None user_u1
           (inr [ConversationRow.mk "c1" None "t0" [] None]) (inr []) state_0 H).
Defined.
